(** * AIAnalysis: the analysis workflow of [src/components/AIAnalysis.tsx]

    The development embeds the React component [AIAnalysis] and the platform
    operations it relies on:

    - [JsNumber]: JavaScript numbers as IEEE 754 binary64 values, with the
      multiplication, comparison and [Math.floor] used by [simulateAIAnalysis];
    - [Synth]: the object literal [mockResult], evaluated against an explicit
      stream of [Math.random()] draws;
    - [Json]: [JSON.stringify (v, null, 2)] and [JSON.parse];
    - [Component]: the state of the component, its event handlers and the
      guards the markup puts on them. *)

From Stdlib Require Import ZArith Lia Bool List String Ascii.
From Stdlib Require Import Floats.SpecFloat.
From Stdlib Require Import DecimalString DecimalFacts DecimalN.
Import ListNotations.

#[local] Set Warnings "-register-all".

Local Open Scope Z_scope.

(** ** JavaScript numbers *)

Module JsNumber.

(** A JavaScript number is a binary64 value: 53 bits of precision, infinities
    at exponent 1024.  [spec_float] and its operations are the IEEE 754
    specification of the Standard Library. *)
Definition prec : Z := 53.
Definition emax : Z := 1024.
Definition number : Type := spec_float.

(** [x * y] on numbers. *)
Definition mul (x y : number) : number := SFmul prec emax x y.

(** [x > y] on numbers. *)
Definition gt (x y : number) : bool := SFltb y x.

(** An integer literal such as [30]. *)
Definition of_int (z : Z) : number := binary_normalize prec emax z 0 false.

(** The literal [0.7]: the binary64 value nearest to 7/10,
    [0x3FE6666666666666]. *)
Definition lit_0_7 : number := S754_finite false 6305039478318694 (-53).

(** [Math.floor x], as a mathematical integer.  On NaN and the infinities
    JavaScript returns the argument itself; they are mapped to [0] here and
    [mul_unit_finite] below shows that no call of the component gets there. *)
Definition Math_floor (x : number) : Z :=
  match x with
  | S754_finite s m e =>
      let z := if s then Zneg m else Zpos m in
      if 0 <=? e then z * 2 ^ e else z / 2 ^ (- e)
  | _ => 0
  end.

(** The values [Math.random()] may return: a number with positive sign,
    greater than or equal to [+0] and strictly less than [1]. *)
Definition unit_interval (x : number) : bool :=
  match x with
  | S754_zero false => true
  | S754_finite false m e => bounded prec emax m e && SFltb x (of_int 1)
  | _ => false
  end.

Record Unit01 : Type := MkUnit01 {
  u_val : number;
  u_ok : unit_interval u_val = true
}.

(** [Math.floor (Math.random () * n)] for an integer literal [n]. *)
Definition random_below (n : Z) (r : Unit01) : Z :=
  Math_floor (mul (u_val r) (of_int n)).

(** [Math.random () > 0.7]. *)
Definition random_above_0_7 (r : Unit01) : bool := gt (u_val r) lit_0_7.

(** Some values of [Math.random()], for the examples. *)
Definition u_zero : Unit01 := MkUnit01 (S754_zero false) eq_refl.
(** 0.5 *)
Definition u_half : Unit01 :=
  MkUnit01 (S754_finite false 4503599627370496 (-53)) eq_refl.
(** 0.8, [0x3FE999999999999A] *)
Definition u_0_8 : Unit01 :=
  MkUnit01 (S754_finite false 7205759403792794 (-53)) eq_refl.
(** the largest number below 1, [1 - 2^-53] *)
Definition u_max : Unit01 :=
  MkUnit01 (S754_finite false 9007199254740991 (-53)) eq_refl.
(** the smallest positive number, [2^-1074] *)
Definition u_tiny : Unit01 :=
  MkUnit01 (S754_finite false 1 (-1074)) eq_refl.

(** [x] as a value of [Math.random()]; [+0] stands in when [x] is not one. *)
Definition unit01_of (x : number) : Unit01 :=
  match unit_interval x as b return unit_interval x = b -> Unit01 with
  | true => fun H => MkUnit01 x H
  | false => fun _ => u_zero
  end eq_refl.

(** The least multiple of [2^-53] that is at least [k / n]. *)
Definition draw_for (n k : Z) : Unit01 :=
  unit01_of (binary_normalize prec emax ((k * 2 ^ 53 + n - 1) / n) (-53) false).

(** The integer literal [n] is the binary64 number of value [n], written
    with a non-positive exponent. *)
Definition exact_literal (n : Z) : bool :=
  match of_int n with
  | S754_finite false my ey => (ey <=? 0) && (Z.pos my =? n * 2 ^ (- ey))
  | _ => false
  end.

(** [lo; lo + 1; ...], [len] integers. *)
Definition Z_range (lo : Z) (len : nat) : list Z :=
  map (fun i => lo + Z.of_nat i) (seq 0 len).

End JsNumber.

(** ** The synthesized report *)

Module Synth.
Import JsNumber.

Local Open Scope string_scope.
Local Open Scope Z_scope.

(** The interface [AnalysisResult].  The two level fields hold the value of
    an array access, which is a string or [undefined] ([None]). *)
Record DiseaseDetection : Type := {
  detected : bool;
  diseases : list string;
  confidence : Z
}.

Record MarketPrediction : Type := {
  expectedPrice : Z;
  demandLevel : option string;
  bestHarvestTime : string
}.

Record EnvironmentalFactors : Type := {
  soilHealth : Z;
  weatherImpact : string;
  pestRisk : option string
}.

Record AnalysisResult : Type := {
  healthScore : Z;
  diseaseDetection : DiseaseDetection;
  recommendations : list string;
  marketPrediction : MarketPrediction;
  environmentalFactors : EnvironmentalFactors
}.

(** The source of randomness: the sequence of values the successive calls of
    [Math.random()] return, and a cursor into it. *)
Definition Rng : Type := nat -> Unit01.

Definition Rand (A : Type) : Type := Rng -> nat -> A * nat.

Definition ret {A : Type} (a : A) : Rand A := fun _ i => (a, i).

Definition bind {A B : Type} (c : Rand A) (k : A -> Rand B) : Rand B :=
  fun g i => let (a, j) := c g i in k a g j.

Definition Math_random : Rand Unit01 := fun g i => (g i, S i).

Notation "x <- c ;; k" := (bind c (fun x => k))
  (at level 61, c at next level, right associativity).

(** [a[i]] on an array literal: [undefined] outside the array. *)
Definition js_index {A : Type} (a : list A) (i : Z) : option A :=
  if i <? 0 then None else nth_error a (Z.to_nat i).

Definition levels : list string := ["Low"; "Medium"; "High"].

Definition recommendations_text : list string :=
  [ "Increase watering frequency by 20%";
    "Apply organic fertilizer rich in nitrogen";
    "Monitor for pest activity in the next 7 days";
    "Consider companion planting with marigolds";
    "Harvest within 2-3 weeks for optimal quality" ].

(** The object literal [mockResult] of [simulateAIAnalysis]: eight calls of
    [Math.random()], in the order of the properties. *)
Definition mockResult : Rand AnalysisResult :=
  r_health <- Math_random ;;
  r_detected <- Math_random ;;
  r_diseases <- Math_random ;;
  r_confidence <- Math_random ;;
  r_price <- Math_random ;;
  r_demand <- Math_random ;;
  r_soil <- Math_random ;;
  r_pest <- Math_random ;;
  ret {|
    healthScore := random_below 30 r_health + 70;
    diseaseDetection := {|
      detected := random_above_0_7 r_detected;
      diseases :=
        if random_above_0_7 r_diseases
        then ["Leaf Blight"; "Powdery Mildew"] else [];
      confidence := random_below 20 r_confidence + 80
    |};
    recommendations := recommendations_text;
    marketPrediction := {|
      expectedPrice := random_below 50 r_price + 25;
      demandLevel := js_index levels (random_below 3 r_demand);
      bestHarvestTime := "Next 2-3 weeks"
    |};
    environmentalFactors := {|
      soilHealth := random_below 30 r_soil + 70;
      weatherImpact := "Favorable conditions expected";
      pestRisk := js_index levels (random_below 3 r_pest)
    |}
  |}.

(** The result synthesized from the draws of [g] starting at cursor [i]. *)
Definition synthesize (g : Rng) (i : nat) : AnalysisResult := fst (mockResult g i).

(** A finite prefix of draws, continued by the constant [0]. *)
Definition draws (l : list Unit01) : Rng := fun i => nth i l u_zero.

(** Eight draws in which the second call of [Math.random()] returns 0.8 and
    the third 0.5. *)
Definition detected_without_diseases : Rng :=
  draws [u_half; u_0_8; u_half; u_half; u_half; u_half; u_half; u_half].

(** [getHealthScoreColor] *)
Definition getHealthScoreColor (score : Z) : string :=
  if 90 <=? score then "text-green-600"
  else if 70 <=? score then "text-yellow-600"
  else "text-red-600".

(** The class of the health bar, written out in the markup next to
    [getHealthScoreColor]. *)
Definition healthBarClass (score : Z) : string :=
  if 90 <=? score then "bg-green-500"
  else if 70 <=? score then "bg-yellow-500"
  else "bg-red-500".

(** [getDemandLevelColor] *)
Definition getDemandLevelColor (level : string) : string :=
  if String.eqb level "High" then "text-green-600 bg-green-100"
  else if String.eqb level "Medium" then "text-yellow-600 bg-yellow-100"
  else if String.eqb level "Low" then "text-red-600 bg-red-100"
  else "text-gray-600 bg-gray-100".

(** [getRiskLevelColor] *)
Definition getRiskLevelColor (risk : string) : string :=
  if String.eqb risk "Low" then "text-green-600 bg-green-100"
  else if String.eqb risk "Medium" then "text-yellow-600 bg-yellow-100"
  else if String.eqb risk "High" then "text-red-600 bg-red-100"
  else "text-gray-600 bg-gray-100".

(** Draws that make the randomized numbers of the report [h], [c], [p] and
    [s] above their offsets, the levels those of index [d] and [q], and the
    two disease draws 0.8 or 0.5. *)
Definition draws_for (h c p s d q : Z) (det dis : bool) : Rng :=
  draws [draw_for 30 h;
         if det then u_0_8 else u_half;
         if dis then u_0_8 else u_half;
         draw_for 20 c; draw_for 50 p; draw_for 3 d;
         draw_for 30 s; draw_for 3 q].

End Synth.

(** ** JSON text *)

Module Json.

Local Open Scope string_scope.
Local Open Scope Z_scope.

(** The values [JSON.stringify] writes and [JSON.parse] builds.  Numbers are
    the integers; strings are sequences of code units below 256; an object
    keeps its members in insertion order. *)
Inductive value : Type :=
| JNull
| JBool (b : bool)
| JNum (n : Z)
| JStr (s : string)
| JArr (elements : list value)
| JObj (members : list (string * value)).

Definition dquote : ascii := ascii_of_N 34.
Definition backslash : ascii := ascii_of_N 92.
Definition newline : ascii := ascii_of_N 10.

(** *** [JSON.stringify (v, null, 2)] *)

Definition hex_digit (n : N) : ascii :=
  nth (N.to_nat n) (list_ascii_of_string "0123456789abcdef") "0"%char.

(** One code unit inside a quoted string (QuoteJSONString). *)
Definition escape_char (c : ascii) : string :=
  let n := N_of_ascii c in
  match n with
  | 8%N => "\b"
  | 9%N => "\t"
  | 10%N => "\n"
  | 12%N => "\f"
  | 13%N => "\r"
  | 34%N => String backslash (String dquote EmptyString)
  | 92%N => "\\"
  | _ =>
      if (n <? 32)%N
      then "\u00" ++ String (hex_digit (n / 16)) (String (hex_digit (n mod 16)) EmptyString)
      else String c EmptyString
  end.

Fixpoint escape (s : string) : string :=
  match s with
  | EmptyString => EmptyString
  | String c s' => escape_char c ++ escape s'
  end.

Definition QuoteJSONString (s : string) : string :=
  String dquote (escape s ++ String dquote EmptyString).

(** The decimal digits of a natural number, without leading zero. *)
Definition digits_of (n : N) : string := NilEmpty.string_of_uint (N.to_uint n).

(** [Number::toString] on an integer. *)
Definition number_to_string (n : Z) : string :=
  if n <? 0 then String "-" (digits_of (Z.to_N (- n))) else digits_of (Z.to_N n).

(** The indentation unit of [JSON.stringify (_, null, 2)]. *)
Definition gap : string := "  ".

Definition nl : string := String newline EmptyString.

(** SerializeJSONProperty, with SerializeJSONArray and SerializeJSONObject
    inlined; [indent] is the current indentation. *)
Fixpoint SerializeJSONProperty (indent : string) (v : value) {struct v} : string :=
  match v with
  | JNull => "null"
  | JBool b => if b then "true" else "false"
  | JNum n => number_to_string n
  | JStr s => QuoteJSONString s
  | JArr l =>
      match l with
      | [] => "[]"
      | _ :: _ =>
          let ind := indent ++ gap in
          "[" ++ nl ++ ind
          ++ String.concat ("," ++ nl ++ ind) (map (SerializeJSONProperty ind) l)
          ++ nl ++ indent ++ "]"
      end
  | JObj l =>
      match l with
      | [] => "{}"
      | _ :: _ =>
          let ind := indent ++ gap in
          "{" ++ nl ++ ind
          ++ String.concat ("," ++ nl ++ ind)
               (map (fun kv : string * value =>
                       let (k, x) := kv in
                       QuoteJSONString k ++ ": " ++ SerializeJSONProperty ind x) l)
          ++ nl ++ indent ++ "}"
      end
  end.

Definition JSON_stringify (v : value) : string :=
  SerializeJSONProperty EmptyString v.

(** *** [JSON.parse] *)

Definition is_ws (c : ascii) : bool :=
  match N_of_ascii c with
  | 9%N | 10%N | 13%N | 32%N => true
  | _ => false
  end.

Fixpoint skip_ws (s : string) : string :=
  match s with
  | String c s' => if is_ws c then skip_ws s' else s
  | EmptyString => s
  end.

Definition is_digit (c : ascii) : bool :=
  ((48 <=? N_of_ascii c) && (N_of_ascii c <=? 57))%N.

(** The longest prefix of digits, and what follows it. *)
Fixpoint span_digits (s : string) : string * string :=
  match s with
  | String c s' =>
      if is_digit c
      then let (ds, rest) := span_digits s' in (String c ds, rest)
      else (EmptyString, s)
  | EmptyString => (EmptyString, s)
  end.

(** A fraction or an exponent would follow. *)
Definition continues_number (s : string) : bool :=
  match s with
  | String c _ => Ascii.eqb c "." || Ascii.eqb c "e" || Ascii.eqb c "E"
  | EmptyString => false
  end.

(** A JSON integer without sign: no leading zero, and neither fraction nor
    exponent (those are outside the numbers modelled here). *)
Definition parse_natural (s : string) : option (N * string) :=
  let (ds, rest) := span_digits s in
  match ds with
  | EmptyString => None
  | String c ds' =>
      if Ascii.eqb c "0" && negb (String.eqb ds' EmptyString) then None
      else if continues_number rest then None
      else match NilEmpty.uint_of_string ds with
           | Some d => Some (N.of_uint d, rest)
           | None => None
           end
  end.

Definition parse_number (s : string) : option (Z * string) :=
  match s with
  | String c s' =>
      if Ascii.eqb c "-"
      then match parse_natural s' with
           | Some (n, rest) => Some (- Z.of_N n, rest)
           | None => None
           end
      else match parse_natural s with
           | Some (n, rest) => Some (Z.of_N n, rest)
           | None => None
           end
  | EmptyString => None
  end.

Definition hex_value (c : ascii) : option N :=
  let n := N_of_ascii c in
  if ((48 <=? n) && (n <=? 57))%N then Some (n - 48)%N
  else if ((97 <=? n) && (n <=? 102))%N then Some (n - 87)%N
  else if ((65 <=? n) && (n <=? 70))%N then Some (n - 55)%N
  else None.

(** [\uXXXX]: the code unit, when it is below 256. *)
Definition unicode_escape (h1 h2 h3 h4 : ascii) : option ascii :=
  match hex_value h1, hex_value h2, hex_value h3, hex_value h4 with
  | Some a, Some b, Some c, Some d =>
      let n := (((a * 16 + b) * 16 + c) * 16 + d)%N in
      if (n <? 256)%N then Some (ascii_of_N n) else None
  | _, _, _, _ => None
  end.

(** The single-character escapes. *)
Definition simple_escape (c : ascii) : option ascii :=
  if Ascii.eqb c dquote then Some dquote
  else if Ascii.eqb c backslash then Some backslash
  else if Ascii.eqb c "/" then Some "/"%char
  else if Ascii.eqb c "b" then Some (ascii_of_N 8)
  else if Ascii.eqb c "f" then Some (ascii_of_N 12)
  else if Ascii.eqb c "n" then Some (ascii_of_N 10)
  else if Ascii.eqb c "r" then Some (ascii_of_N 13)
  else if Ascii.eqb c "t" then Some (ascii_of_N 9)
  else None.

Definition cons_result (c : ascii) (r : option (string * string)) :
  option (string * string) :=
  match r with
  | Some (body, rest) => Some (String c body, rest)
  | None => None
  end.

(** The characters of a string literal after its opening quote, up to and
    including the closing quote. *)
Fixpoint parse_string_body (s : string) : option (string * string) :=
  match s with
  | EmptyString => None
  | String c s1 =>
      if Ascii.eqb c dquote then Some (EmptyString, s1)
      else if Ascii.eqb c backslash then
        match s1 with
        | EmptyString => None
        | String e s2 =>
            if Ascii.eqb e "u" then
              match s2 with
              | String h1 (String h2 (String h3 (String h4 s3))) =>
                  match unicode_escape h1 h2 h3 h4 with
                  | Some u => cons_result u (parse_string_body s3)
                  | None => None
                  end
              | _ => None
              end
            else
              match simple_escape e with
              | Some u => cons_result u (parse_string_body s2)
              | None => None
              end
        end
      else if (N_of_ascii c <? 32)%N then None
      else cons_result c (parse_string_body s1)
  end.

(** [strip_prefix p s] removes [p] from the front of [s]. *)
Fixpoint strip_prefix (p s : string) : option string :=
  match p with
  | EmptyString => Some s
  | String a p' =>
      match s with
      | String b s' => if Ascii.eqb a b then strip_prefix p' s' else None
      | EmptyString => None
      end
  end.

Definition literal (word : string) (v : value) (s : string) :
  option (value * string) :=
  match strip_prefix word s with
  | Some rest => Some (v, rest)
  | None => None
  end.

(** The recursive descent.  Each function expects its input with leading
    white space already skipped; [fuel] bounds the nesting and is set from the
    length of the text by [JSON_parse]. *)
Fixpoint parse_value (fuel : nat) (s : string) {struct fuel} :
  option (value * string) :=
  match fuel with
  | O => None
  | S fuel' =>
      match s with
      | EmptyString => None
      | String c s' =>
          if Ascii.eqb c "n" then literal "null" JNull s
          else if Ascii.eqb c "t" then literal "true" (JBool true) s
          else if Ascii.eqb c "f" then literal "false" (JBool false) s
          else if Ascii.eqb c dquote then
            match parse_string_body s' with
            | Some (str, rest) => Some (JStr str, rest)
            | None => None
            end
          else if Ascii.eqb c "[" then
            match skip_ws s' with
            | String d rest =>
                if Ascii.eqb d "]" then Some (JArr [], rest)
                else match parse_elements fuel' (String d rest) with
                     | Some (l, rest') => Some (JArr l, rest')
                     | None => None
                     end
            | EmptyString => None
            end
          else if Ascii.eqb c "{" then
            match skip_ws s' with
            | String d rest =>
                if Ascii.eqb d "}" then Some (JObj [], rest)
                else match parse_members fuel' (String d rest) with
                     | Some (l, rest') => Some (JObj l, rest')
                     | None => None
                     end
            | EmptyString => None
            end
          else match parse_number s with
               | Some (n, rest) => Some (JNum n, rest)
               | None => None
               end
      end
  end

with parse_elements (fuel : nat) (s : string) {struct fuel} :
  option (list value * string) :=
  match fuel with
  | O => None
  | S fuel' =>
      match parse_value fuel' s with
      | Some (v, s1) =>
          match skip_ws s1 with
          | String d s2 =>
              if Ascii.eqb d "," then
                match parse_elements fuel' (skip_ws s2) with
                | Some (l, rest) => Some (v :: l, rest)
                | None => None
                end
              else if Ascii.eqb d "]" then Some ([v], s2)
              else None
          | EmptyString => None
          end
      | None => None
      end
  end

with parse_members (fuel : nat) (s : string) {struct fuel} :
  option (list (string * value) * string) :=
  match fuel with
  | O => None
  | S fuel' =>
      match s with
      | String q s0 =>
          if Ascii.eqb q dquote then
            match parse_string_body s0 with
            | Some (k, s1) =>
                match skip_ws s1 with
                | String colon s2 =>
                    if Ascii.eqb colon ":" then
                      match parse_value fuel' (skip_ws s2) with
                      | Some (v, s3) =>
                          match skip_ws s3 with
                          | String d s4 =>
                              if Ascii.eqb d "," then
                                match parse_members fuel' (skip_ws s4) with
                                | Some (l, rest) => Some ((k, v) :: l, rest)
                                | None => None
                                end
                              else if Ascii.eqb d "}" then Some ([(k, v)], s4)
                              else None
                          | EmptyString => None
                          end
                      | None => None
                      end
                    else None
                | EmptyString => None
                end
            | None => None
            end
          else None
      | EmptyString => None
      end
  end.

(** [JSON.parse text]: one value, surrounded by white space only. *)
Definition JSON_parse (text : string) : option value :=
  match parse_value (S (String.length text)) (skip_ws text) with
  | Some (v, rest) =>
      match skip_ws rest with
      | EmptyString => Some v
      | String _ _ => None
      end
  | None => None
  end.

(** Property access [o.k] on a parsed value: the last member of that name
    ([JSON.parse] lets a later duplicate win), [undefined] when there is
    none or when [o] is not an object. *)
Fixpoint lookup (k : string) (l : list (string * value)) : option value :=
  match l with
  | [] => None
  | (k', x) :: l' =>
      match lookup k l' with
      | Some y => Some y
      | None => if String.eqb k k' then Some x else None
      end
  end.

Definition get (k : string) (o : value) : option value :=
  match o with
  | JObj l => lookup k l
  | _ => None
  end.

(** *** Notions used to reason about the two functions *)

(** Only white space. *)
Fixpoint blank (s : string) : bool :=
  match s with
  | EmptyString => true
  | String c s' => is_ws c && blank s'
  end.

(** The characters a serialized value can start with. *)
Definition is_value_head (c : ascii) : bool :=
  Ascii.eqb c "n" || Ascii.eqb c "t" || Ascii.eqb c "f" || Ascii.eqb c dquote
  || Ascii.eqb c "[" || Ascii.eqb c "{" || Ascii.eqb c "-" || is_digit c.

(** What may follow a number: anything but a digit, a fraction or an
    exponent. *)
Definition delimited (rest : string) : bool :=
  match rest with
  | EmptyString => true
  | String c _ => negb (is_digit c) && negb (continues_number rest)
  end.

(** The fuel [parse_value] spends on the text of a value. *)
Fixpoint need (v : value) : nat :=
  match v with
  | JArr l => S (list_sum (map (fun x => S (need x)) l))
  | JObj l => S (list_sum (map (fun kv : string * value => S (need (snd kv))) l))
  | _ => 1
  end.

Definition need_elements (l : list value) : nat :=
  list_sum (map (fun x => S (need x)) l).

Definition need_members (l : list (string * value)) : nat :=
  list_sum (map (fun kv : string * value => S (need (snd kv))) l).

(** One member of a serialized object. *)
Definition member_text (ind : string) (kv : string * value) : string :=
  let (k, x) := kv in QuoteJSONString k ++ ": " ++ SerializeJSONProperty ind x.

End Json.

(** ** The component *)

Module Component.
Import Synth Json.

Local Open Scope string_scope.

(** *** Props *)

(** Modelled from the spec: the type [Crop] of [../types], which is not part
    of the sources: identifier, display name, crop type, soil type, harvest
    date, expiry date and an optional image reference.  The field names are
    those the component reads. *)
Record Crop : Type := {
  id : string;
  name : string;
  crop_type : string;
  soil_type : string;
  harvest_date : string;
  expiry_date : string;
  image_url : option string
}.

(** A [File] handed over by the file input: its name, and the data URL that
    [FileReader.readAsDataURL] produces for it, [None] when the read fails. *)
Record File : Type := {
  file_name : string;
  file_data : option string
}.

(** A string in a condition: the empty string is falsy. *)
Definition truthy (s : string) : bool :=
  match s with
  | EmptyString => false
  | String _ _ => true
  end.

(** [crop?.image_url] in a condition *)
Definition crop_image (crop : option Crop) : bool :=
  match crop with
  | Some c =>
      match image_url c with
      | Some u => truthy u
      | None => false
      end
  | None => false
  end.

(** [crop?.name || 'crop'] *)
Definition crop_name (crop : option Crop) : string :=
  match crop with
  | Some c => if truthy (name c) then name c else "crop"
  | None => "crop"
  end.

(** *** State: the five [useState] cells *)

Inductive AnalysisType : Type := disease | health | market.

Record State : Type := {
  selectedImage : option File;
  imagePreview : string;
  analyzing : bool;
  analysisResult : option AnalysisResult;
  analysisType : AnalysisType
}.

Definition initial : State := {|
  selectedImage := None;
  imagePreview := EmptyString;
  analyzing := false;
  analysisResult := None;
  analysisType := disease
|}.

Definition setSelectedImage (f : option File) (s : State) : State :=
  {| selectedImage := f;
     imagePreview := imagePreview s;
     analyzing := analyzing s;
     analysisResult := analysisResult s;
     analysisType := analysisType s |}.

Definition setImagePreview (p : string) (s : State) : State :=
  {| selectedImage := selectedImage s;
     imagePreview := p;
     analyzing := analyzing s;
     analysisResult := analysisResult s;
     analysisType := analysisType s |}.

Definition setAnalyzing (b : bool) (s : State) : State :=
  {| selectedImage := selectedImage s;
     imagePreview := imagePreview s;
     analyzing := b;
     analysisResult := analysisResult s;
     analysisType := analysisType s |}.

Definition setAnalysisResult (r : option AnalysisResult) (s : State) : State :=
  {| selectedImage := selectedImage s;
     imagePreview := imagePreview s;
     analyzing := analyzing s;
     analysisResult := r;
     analysisType := analysisType s |}.

Definition setAnalysisType (t : AnalysisType) (s : State) : State :=
  {| selectedImage := selectedImage s;
     imagePreview := imagePreview s;
     analyzing := analyzing s;
     analysisResult := analysisResult s;
     analysisType := t |}.

(** *** Event handlers *)

(** [handleImageUpload]: the new state, and the file whose read was started.
    [file] is [e.target.files?.[0]]. *)
Definition handleImageUpload (file : option File) (s : State) :
  State * option File :=
  match file with
  | Some f => (setSelectedImage (Some f) s, Some f)
  | None => (s, None)
  end.

(** [reader.onload] *)
Definition reader_onload (result : string) (s : State) : State :=
  setImagePreview result s.

(** The end of a read: [onload] runs when it succeeded; the component
    installs no [onerror]. *)
Definition reader_settles (f : File) (s : State) : State :=
  match file_data f with
  | Some url => reader_onload url s
  | None => s
  end.

(** The [onClick] of "Remove Image" *)
Definition removeImage (s : State) : State :=
  setImagePreview EmptyString (setSelectedImage None s).

(** [simulateAIAnalysis], up to its [await] *)
Definition simulateAIAnalysis_start (s : State) : State := setAnalyzing true s.

(** [simulateAIAnalysis], after its [await]: [mockResult] is built and
    stored, then [analyzing] is cleared. *)
Definition simulateAIAnalysis_resume (r : AnalysisResult) (s : State) : State :=
  setAnalyzing false (setAnalysisResult (Some r) s).

(** *** What the markup renders and enables *)

(** [disabled={analyzing || (!selectedImage && !crop?.image_url)}] *)
Definition analyze_disabled (crop : option Crop) (s : State) : bool :=
  analyzing s
  || (negb (match selectedImage s with Some _ => true | None => false end)
      && negb (crop_image crop)).

(** The file input replaces the preview: [imagePreview ? ... : ...]. *)
Definition upload_rendered (s : State) : bool := negb (truthy (imagePreview s)).

Definition remove_rendered (s : State) : bool := truthy (imagePreview s).

(** [{analysisResult && ...}] *)
Definition export_rendered (s : State) : bool :=
  match analysisResult s with Some _ => true | None => false end.

(** A click on "Start AI Analysis".  The [disabled] attribute is that of the
    last render, [rendered]; a disabled button dispatches nothing.
    [simulateAIAnalysis] itself has no guard and works on the current state,
    [current]. *)
Definition click_analyze (crop : option Crop) (rendered current : State) :
  option State :=
  if analyze_disabled crop rendered then None
  else Some (simulateAIAnalysis_start current).

(** *** Export *)

(** The value [JSON.stringify] walks: the properties in creation order, a
    property holding [undefined] left out. *)
Definition member_opt (k : string) (x : option string) : list (string * value) :=
  match x with
  | Some s => [(k, JStr s)]
  | None => []
  end.

Definition result_to_value (r : AnalysisResult) : value :=
  JObj [
    ("healthScore", JNum (healthScore r));
    ("diseaseDetection", JObj [
       ("detected", JBool (detected (diseaseDetection r)));
       ("diseases", JArr (map JStr (diseases (diseaseDetection r))));
       ("confidence", JNum (confidence (diseaseDetection r))) ]);
    ("recommendations", JArr (map JStr (recommendations r)));
    ("marketPrediction", JObj (
       [("expectedPrice", JNum (expectedPrice (marketPrediction r)))]
       ++ member_opt "demandLevel" (demandLevel (marketPrediction r))
       ++ [("bestHarvestTime", JStr (bestHarvestTime (marketPrediction r)))])%list);
    ("environmentalFactors", JObj (
       [("soilHealth", JNum (soilHealth (environmentalFactors r)));
        ("weatherImpact", JStr (weatherImpact (environmentalFactors r)))]
       ++ member_opt "pestRisk" (pestRisk (environmentalFactors r)))%list)
  ].

(** [s.split('T')[0]] *)
Fixpoint before_T (s : string) : string :=
  match s with
  | EmptyString => EmptyString
  | String c s' => if Ascii.eqb c "T" then EmptyString else String c (before_T s')
  end.

(** The file offered for download; [now] is [new Date().toISOString()]. *)
Record Download : Type := {
  download_name : string;
  download_body : string
}.

Definition export_filename (crop : option Crop) (now : string) : string :=
  "ai-analysis-" ++ crop_name crop ++ "-" ++ before_T now ++ ".json".

(** The [onClick] of "Export Report"; [s] is the state of the render that
    created the handler, and the button exists only with a result. *)
Definition export_onClick (crop : option Crop) (now : string) (s : State) :
  option Download :=
  match analysisResult s with
  | Some r =>
      Some {| download_name := export_filename crop now;
              download_body := JSON_stringify (result_to_value r) |}
  | None => None
  end.

(** Reading a parsed report back, property by property. *)
Definition read_number (o : value) (k : string) : option Z :=
  match get k o with Some (JNum n) => Some n | _ => None end.

Definition read_bool (o : value) (k : string) : option bool :=
  match get k o with Some (JBool b) => Some b | _ => None end.

Definition read_string (o : value) (k : string) : option string :=
  match get k o with Some (JStr s) => Some s | _ => None end.

(** A property that may be absent: [Some None] is [undefined]. *)
Definition read_string_opt (o : value) (k : string) : option (option string) :=
  match get k o with
  | Some (JStr s) => Some (Some s)
  | None => Some None
  | _ => None
  end.

Fixpoint strings_of (l : list value) : option (list string) :=
  match l with
  | [] => Some []
  | JStr s :: l' =>
      match strings_of l' with
      | Some r => Some (s :: r)
      | None => None
      end
  | _ :: _ => None
  end.

Definition read_strings (o : value) (k : string) : option (list string) :=
  match get k o with Some (JArr l) => strings_of l | _ => None end.

Definition read_result (v : value) : option AnalysisResult :=
  match read_number v "healthScore",
        get "diseaseDetection" v,
        read_strings v "recommendations",
        get "marketPrediction" v,
        get "environmentalFactors" v with
  | Some hs, Some dd, Some recs, Some mp, Some ef =>
      match read_bool dd "detected", read_strings dd "diseases",
            read_number dd "confidence",
            read_number mp "expectedPrice", read_string_opt mp "demandLevel",
            read_string mp "bestHarvestTime",
            read_number ef "soilHealth", read_string ef "weatherImpact",
            read_string_opt ef "pestRisk" with
      | Some det, Some dis, Some conf, Some price, Some demand, Some harvest,
        Some soil, Some weather, Some pest =>
          Some {|
            healthScore := hs;
            diseaseDetection :=
              {| detected := det; diseases := dis; confidence := conf |};
            recommendations := recs;
            marketPrediction :=
              {| expectedPrice := price; demandLevel := demand;
                 bestHarvestTime := harvest |};
            environmentalFactors :=
              {| soilHealth := soil; weatherImpact := weather;
                 pestRisk := pest |}
          |}
      | _, _, _, _, _, _, _, _, _ => None
      end
  | _, _, _, _, _ => None
  end.

(** *** The four states of the workflow, read off the component state *)

Inductive Phase : Type := Idle | ImageReady | Analyzing | Complete.

Definition has_image (crop : option Crop) (s : State) : bool :=
  match selectedImage s with Some _ => true | None => crop_image crop end.

Definition phase (crop : option Crop) (s : State) : Phase :=
  if analyzing s then Analyzing
  else match analysisResult s with
       | Some _ => Complete
       | None => if has_image crop s then ImageReady else Idle
       end.

(** *** The component in its environment *)

(** What the component sends out: calls of [onClose], files to download. *)
Inductive Signal : Type :=
| CloseRequested
| Downloaded (d : Download).

(** The component together with what is pending around it: the current
    values of the state cells, [ui]; the values of the last render, [shown],
    which decide what the page offers and which the handlers created by that
    render have captured; whether React still holds the instance; the
    [setTimeout] continuations and [FileReader] loads in flight; the position
    in the [Math.random()] stream; the signals sent so far (latest first). *)
Record World : Type := {
  ui : State;
  shown : State;
  mounted : bool;
  timers : nat;
  reads : list File;
  cursor : nat;
  signals : list Signal
}.

Definition start : World := {|
  ui := initial;
  shown := initial;
  mounted := true;
  timers := 0;
  reads := [];
  cursor := 0;
  signals := []
|}.

Inductive Event : Type :=
| PickFile (f : option File)
| ReadSettles (i : nat)
| ClickRemove
| SelectType (t : AnalysisType)
| ClickAnalyze
| TimerFires
| ClickExport (now : string)
| ClickClose
| HostUnmounts
| Render.

(** A state setter: React drops the update once the instance is unmounted. *)
Definition commit (w : World) (s : State) : State :=
  if mounted w then s else ui w.

Definition with_ui (w : World) (s : State) : World :=
  {| ui := s; shown := shown w; mounted := mounted w; timers := timers w;
     reads := reads w; cursor := cursor w; signals := signals w |}.

Fixpoint remove_nth {A : Type} (i : nat) (l : list A) : list A :=
  match l, i with
  | [], _ => []
  | _ :: l', O => l'
  | x :: l', S i' => x :: remove_nth i' l'
  end.

(** One event.  What the page offers is read off the last render, [shown];
    the handlers update the current state, [ui]; [Render] is React bringing
    the page up to date, which happens between two tasks but not between two
    events of one task.  [None]: the event cannot happen in this world: the
    control is not rendered or is disabled, nothing of the kind is pending,
    or the instance is gone. *)
Definition step (crop : option Crop) (g : Rng) (e : Event) (w : World) :
  option World :=
  match e with
  | PickFile f =>
      if mounted w && upload_rendered (shown w) then
        let (s', started) := handleImageUpload f (ui w) in
        Some {| ui := s'; shown := shown w; mounted := mounted w;
                timers := timers w;
                reads := (reads w ++ match started with
                                     | Some x => [x]
                                     | None => []
                                     end)%list;
                cursor := cursor w; signals := signals w |}
      else None
  | ReadSettles i =>
      match nth_error (reads w) i with
      | Some f =>
          Some {| ui := commit w (reader_settles f (ui w));
                  shown := shown w;
                  mounted := mounted w; timers := timers w;
                  reads := remove_nth i (reads w);
                  cursor := cursor w; signals := signals w |}
      | None => None
      end
  | ClickRemove =>
      if mounted w && remove_rendered (shown w)
      then Some (with_ui w (removeImage (ui w)))
      else None
  | SelectType t =>
      if mounted w then Some (with_ui w (setAnalysisType t (ui w))) else None
  | ClickAnalyze =>
      if mounted w then
        match click_analyze crop (shown w) (ui w) with
        | Some s' =>
            Some {| ui := s'; shown := shown w; mounted := mounted w;
                    timers := S (timers w);
                    reads := reads w; cursor := cursor w;
                    signals := signals w |}
        | None => None
        end
      else None
  | TimerFires =>
      match timers w with
      | S n =>
          let (r, c) := mockResult g (cursor w) in
          Some {| ui := commit w (simulateAIAnalysis_resume r (ui w));
                  shown := shown w;
                  mounted := mounted w; timers := n; reads := reads w;
                  cursor := c; signals := signals w |}
      | O => None
      end
  | ClickExport now =>
      if mounted w then
        match export_onClick crop now (shown w) with
        | Some d =>
            Some {| ui := ui w; shown := shown w; mounted := mounted w;
                    timers := timers w;
                    reads := reads w; cursor := cursor w;
                    signals := Downloaded d :: signals w |}
        | None => None
        end
      else None
  | ClickClose =>
      if mounted w then
        Some {| ui := ui w; shown := shown w; mounted := mounted w;
                timers := timers w;
                reads := reads w; cursor := cursor w;
                signals := CloseRequested :: signals w |}
      else None
  | HostUnmounts =>
      if mounted w then
        Some {| ui := ui w; shown := shown w; mounted := false;
                timers := timers w;
                reads := reads w; cursor := cursor w; signals := signals w |}
      else None
  | Render =>
      Some {| ui := ui w;
              shown := if mounted w then ui w else shown w;
              mounted := mounted w;
              timers := timers w;
              reads := reads w; cursor := cursor w; signals := signals w |}
  end.

(** A sequence of events, each of which must be possible. *)
Fixpoint exec (crop : option Crop) (g : Rng) (es : list Event) (w : World) :
  option World :=
  match es with
  | [] => Some w
  | e :: es' =>
      match step crop g e w with
      | Some w' => exec crop g es' w'
      | None => None
      end
  end.

(** An event offered to the component: one that cannot happen leaves the
    world as it is. *)
Definition dispatch (crop : option Crop) (g : Rng) (e : Event) (w : World) :
  World :=
  match step crop g e w with
  | Some w' => w'
  | None => w
  end.

(** The worlds the component can be in. *)
Definition reachable (crop : option Crop) (g : Rng) (w : World) : Prop :=
  exists es, exec crop g es start = Some w.

(** Each event in a task of its own: React renders after every one. *)
Definition each_in_its_task (es : list Event) : list Event :=
  flat_map (fun e => [e; Render]) es.

(** Modelled from the spec: the [onClose] handler of the host, which is not
    part of the sources.  [close()] "signals the caller to dismiss the
    workflow" and is "terminal for this controller instance": the host takes
    the component off the page, which unmounts it. *)
Definition close : list Event := [ClickClose; HostUnmounts].

(** Two events that differ at most in the analysis type selected. *)
Definition same_but_type (e1 e2 : Event) : Prop :=
  match e1, e2 with
  | SelectType _, SelectType _ => True
  | _, _ => e1 = e2
  end.

(** A world with the selected analysis type blanked out. *)
Definition forget_type (w : World) : World :=
  {| ui := setAnalysisType disease (ui w);
     shown := setAnalysisType disease (shown w);
     mounted := mounted w; timers := timers w; reads := reads w;
     cursor := cursor w; signals := signals w |}.

(** Two worlds that differ at most in the selected analysis type. *)
Definition same_but_selected_type (w1 w2 : World) : Prop :=
  forget_type w1 = forget_type w2.

(** No occurrence of the character [c]. *)
Fixpoint free_of (c : ascii) (s : string) : bool :=
  match s with
  | EmptyString => true
  | String a s' => negb (Ascii.eqb a c) && free_of c s'
  end.

(** At most one continuation of [simulateAIAnalysis] is pending, and while
    the component is mounted one is pending exactly when [analyzing] is
    set. *)
Definition single_flight (w : World) : Prop :=
  (timers w <= 1)%nat /\
  (timers w = 1%nat -> analyzing (ui w) = true) /\
  (mounted w = true -> analyzing (ui w) = true -> timers w = 1%nat).

(** A report built by one of the analyses run so far. *)
Definition synthesized_so_far (g : Rng) (w : World) (r : AnalysisResult) : Prop :=
  exists k, r = synthesize g (8 * k) /\ (8 * k < cursor w)%nat.

(** The cursor has moved by whole analyses, and a result held by the
    component, current or rendered, was built by one of them. *)
Definition results_synthesized (g : Rng) (w : World) : Prop :=
  (exists k, cursor w = (8 * k)%nat) /\
  (forall r, analysisResult (ui w) = Some r -> synthesized_so_far g w r) /\
  (forall r, analysisResult (shown w) = Some r -> synthesized_so_far g w r).

(** Every file offered for download so far holds the text of a report built
    by one of the analyses run so far. *)
Definition exports_synthesized (g : Rng) (w : World) : Prop :=
  forall d, In (Downloaded d) (signals w) ->
            exists r, synthesized_so_far g w r /\
                      download_body d = JSON_stringify (result_to_value r).

(** Sample data for the examples. *)
Definition leaf_jpg : File :=
  {| file_name := "leaf.jpg"; file_data := Some "data:image/jpeg;base64,AAAA" |}.

Definition stem_png : File :=
  {| file_name := "stem.png"; file_data := Some "data:image/png;base64,BBBB" |}.

Definition broken_jpg : File :=
  {| file_name := "broken.jpg"; file_data := None |}.

Definition tomato : Crop :=
  {| id := "c1"; name := "Tomato"; crop_type := "vegetable";
     soil_type := "loam"; harvest_date := "2024-07-01";
     expiry_date := "2024-07-15";
     image_url := Some "https://example.org/tomato.jpg" |}.

End Component.

(** * Properties *)

(** ** Rounding of binary64 products *)

Module JsNumberFacts.
Import JsNumber.

Lemma iter_pos_nat {A : Type} (f : A -> A) (p : positive) (x : A) :
  iter_pos f p x = Nat.iter (Pos.to_nat p) f x.
Proof.
  revert x; induction p as [p IH | p IH | ]; intro x.
  - rewrite Pos2Nat.inj_xI, Nat.iter_succ_r.
    replace (2 * Pos.to_nat p)%nat with (Pos.to_nat p + Pos.to_nat p)%nat by lia.
    rewrite Nat.iter_add. cbn [iter_pos]. now rewrite !IH.
  - rewrite Pos2Nat.inj_xO.
    replace (2 * Pos.to_nat p)%nat with (Pos.to_nat p + Pos.to_nat p)%nat by lia.
    rewrite Nat.iter_add. cbn [iter_pos]. now rewrite !IH.
  - reflexivity.
Qed.

Lemma shr_1_nonneg (m : Z) (r s : bool) :
  0 <= m ->
  shr_1 (Build_shr_record m r s) = Build_shr_record (m / 2) (Z.odd m) (r || s).
Proof.
  intro Hm. rewrite <- Z.div2_div.
  destruct m as [ | [p | p | ] | p]; try reflexivity; lia.
Qed.

(** [n] right shifts of a mantissa [m]: the quotient, and a round bit that is
    set only when the remainder reaches half of [2^n]. *)
Lemma shr_iter (m : Z) (n : nat) :
  0 <= m ->
  let rec := Nat.iter n shr_1 (Build_shr_record m false false) in
  shr_m rec = m / 2 ^ Z.of_nat n /\
  (shr_r rec = true -> 2 ^ Z.of_nat n <= 2 * (m mod 2 ^ Z.of_nat n)).
Proof.
  intro Hm. induction n as [ | n IH]; cbn zeta.
  - simpl. rewrite Z.div_1_r. split; [reflexivity | discriminate].
  - cbn zeta in IH. rewrite Nat.iter_succ.
    destruct (Nat.iter n shr_1 (Build_shr_record m false false)) as [q r s].
    simpl in IH. destruct IH as [Hq _]. subst q.
    assert (Hp : 0 < 2 ^ Z.of_nat n) by (apply Z.pow_pos_nonneg; lia).
    rewrite shr_1_nonneg by (apply Z.div_pos; lia).
    simpl shr_m; simpl shr_r.
    rewrite Nat2Z.inj_succ, Z.pow_succ_r by lia.
    split.
    + rewrite Z.div_div by lia. f_equal; lia.
    + intro Hodd.
      rewrite (Z.mul_comm 2 (2 ^ Z.of_nat n)).
      rewrite Z.rem_mul_r by lia.
      rewrite Zmod_odd, Hodd.
      pose proof (Z.mod_pos_bound m (2 ^ Z.of_nat n) Hp). lia.
Qed.

Lemma shr_spec (m e n : Z) :
  0 <= m ->
  let k := Z.max 0 n in
  let '(rec, e') := shr (Build_shr_record m false false) e n in
  e' = e + k /\ shr_m rec = m / 2 ^ k /\
  (shr_r rec = true -> 0 < n /\ 2 ^ k <= 2 * (m mod 2 ^ k)).
Proof.
  intros Hm k. destruct n as [ | p | p]; cbn [shr].
  - subst k. simpl. rewrite Z.div_1_r.
    repeat split; try lia; discriminate.
  - rewrite iter_pos_nat.
    destruct (shr_iter m (Pos.to_nat p) Hm) as [Hq Hr].
    rewrite positive_nat_Z in Hq, Hr.
    replace k with (Z.pos p) by (subst k; lia).
    repeat split; try lia; auto.
  - subst k. simpl. rewrite Z.div_1_r.
    repeat split; try lia; discriminate.
Qed.

Lemma round_nearest_even_bounds (rec : shr_record) :
  let q' := round_nearest_even (shr_m rec) (loc_of_shr_record rec) in
  shr_m rec <= q' <= shr_m rec + 1 /\ (shr_r rec = false -> q' = shr_m rec).
Proof.
  destruct rec as [q [ | ] [ | ]]; simpl; destruct (Z.even q);
    repeat split; try lia; discriminate.
Qed.

(** The outcome of rounding the exact product [P * 2^E]: a mantissa [m] at an
    exponent [e >= E] that exceeds the exact value by at most half a unit of
    the first shift. *)
Lemma binary_round_aux_bound (P E : Z) :
  0 < P ->
  let n1 := fexp prec emax (Zdigits2 P + E) - E in
  exists m e : Z,
    0 <= m /\ E <= e /\
    m * 2 ^ (e - E) <= P + (if 0 <? n1 then 2 ^ (n1 - 1) else 0) /\
    binary_round_aux prec emax false P E loc_Exact =
      match m with
      | Z0 => S754_zero false
      | Zpos p =>
          if e <=? emax - prec then S754_finite false p e
          else S754_infinity false
      | Zneg _ => S754_nan
      end.
Proof.
  intros HP n1. unfold binary_round_aux, shr_fexp.
  cbn [shr_record_of_loc]. fold n1.
  pose proof (shr_spec P E n1 (Z.lt_le_incl _ _ HP)) as H1.
  destruct (shr (Build_shr_record P false false) E n1) as [rec1 e1].
  cbn zeta in H1. destruct H1 as (He1 & Hq1 & Hr1).
  pose proof (round_nearest_even_bounds rec1) as Hrnd. cbn zeta in Hrnd.
  set (q' := round_nearest_even (shr_m rec1) (loc_of_shr_record rec1)) in *.
  destruct Hrnd as [Hq' Hexact].
  set (k1 := Z.max 0 n1) in *.
  assert (Hk1 : 0 < 2 ^ k1) by (apply Z.pow_pos_nonneg; lia).
  assert (Hq1pos : 0 <= shr_m rec1)
    by (rewrite Hq1; apply Z.div_pos; lia).
  set (n2 := fexp prec emax (Zdigits2 q' + e1) - e1).
  pose proof (shr_spec q' e1 n2 ltac:(lia)) as H2.
  destruct (shr (Build_shr_record q' false false) e1 n2) as [rec2 e2].
  cbn zeta in H2. destruct H2 as (He2 & Hq2 & _).
  set (k2 := Z.max 0 n2) in *.
  assert (Hk2 : 0 < 2 ^ k2) by (apply Z.pow_pos_nonneg; lia).
  exists (shr_m rec2), e2.
  assert (Hm2 : 0 <= shr_m rec2) by (rewrite Hq2; apply Z.div_pos; lia).
  split; [exact Hm2 | ]. split; [lia | ]. split; [ | reflexivity].
  replace (e2 - E) with (k2 + k1) by lia.
  rewrite Z.pow_add_r by lia.
  assert (Hfl : shr_m rec2 * 2 ^ k2 <= q').
  { rewrite Hq2. pose proof (Z.mul_div_le q' (2 ^ k2) Hk2). lia. }
  assert (Hup : q' * 2 ^ k1 <= P + (if 0 <? n1 then 2 ^ (n1 - 1) else 0)).
  { pose proof (Z.div_mod P (2 ^ k1) ltac:(lia)) as Hdm.
    pose proof (Z.mod_pos_bound P (2 ^ k1) Hk1) as Hmod.
    destruct (shr_r rec1) eqn:Hr.
    - destruct (Hr1 eq_refl) as [Hn1 Hhalf].
      replace (0 <? n1) with true by (symmetry; apply Z.ltb_lt; lia).
      replace k1 with n1 in * by (subst k1; lia).
      assert (Hpow : 2 ^ n1 = 2 * 2 ^ (n1 - 1)).
      { rewrite <- Z.pow_succ_r by lia. f_equal; lia. }
      rewrite <- Hq1 in Hdm. nia.
    - rewrite (Hexact eq_refl).
      assert (0 <= (if 0 <? n1 then 2 ^ (n1 - 1) else 0)).
      { destruct (0 <? n1); [apply Z.pow_nonneg | ]; lia. }
      rewrite <- Hq1 in Hdm. nia. }
  nia.
Qed.

Lemma digits2_bounds (p : positive) :
  2 ^ (Z.pos (digits2_pos p) - 1) <= Z.pos p < 2 ^ Z.pos (digits2_pos p).
Proof.
  induction p as [p IH | p IH | ]; cbn [digits2_pos].
  - rewrite Pos2Z.inj_succ, Z.pow_succ_r by lia.
    replace (Z.succ (Z.pos (digits2_pos p)) - 1)
      with (Z.succ (Z.pos (digits2_pos p) - 1)) by lia.
    rewrite Z.pow_succ_r by lia. lia.
  - rewrite Pos2Z.inj_succ, Z.pow_succ_r by lia.
    replace (Z.succ (Z.pos (digits2_pos p)) - 1)
      with (Z.succ (Z.pos (digits2_pos p) - 1)) by lia.
    rewrite Z.pow_succ_r by lia. lia.
  - simpl. lia.
Qed.

(** What [unit_interval] says of a nonzero value: at most 53 significant
    bits, an exponent within the binary64 range and below that of [1]. *)
Lemma unit_interval_finite (m : positive) (e : Z) :
  unit_interval (S754_finite false m e) = true ->
  Z.pos m < 2 ^ 53 /\ -1074 <= e <= -53.
Proof.
  unfold unit_interval. intro H. apply andb_prop in H. destruct H as [Hb Hlt].
  unfold bounded, canonical_mantissa, fexp, emin, prec, emax in Hb.
  apply andb_prop in Hb. destruct Hb as [Hc _]. apply Z.eqb_eq in Hc.
  pose proof (digits2_bounds m) as Hd.
  change (of_int 1) with (S754_finite false 4503599627370496 (-52)) in Hlt.
  unfold SFltb, SFcompare in Hlt.
  assert (Hdig : Z.pos (digits2_pos m) <= 53) by lia.
  assert (Hm : Z.pos m < 2 ^ 53).
  { apply Z.lt_le_trans with (2 ^ Z.pos (digits2_pos m)); [lia | ].
    apply Z.pow_le_mono_r; lia. }
  split; [exact Hm | ]. split; [lia | ].
  destruct (Z.compare_spec e (-52)) as [He | He | He]; try discriminate; try lia.
  subst e.
  assert (Hdig53 : Z.pos (digits2_pos m) = 53) by lia.
  replace (Z.pos (digits2_pos m) - 1) with 52 in Hd by lia.
  destruct Hd as [Hd _].
  destruct (Pos.compare_cont Eq m 4503599627370496) eqn:Hcmp; try discriminate.
  apply (Pos2Z.pos_lt_pos m 4503599627370496) in Hcmp.
  assert (H52 : 2 ^ 52 = 4503599627370496) by reflexivity.
  rewrite H52 in Hd. apply Z.le_ngt in Hd. contradiction.
Qed.

(** [Math.random () * c], for a constant [c] between 1 and 1024 given by its
    binary64 mantissa and exponent: the product is [+0] or a finite positive
    number of floor below [c].  Rounding to nearest never reaches [c]. *)
Lemma mul_unit_bound (r : Unit01) (my : positive) (ey c : Z) :
  1 <= c <= 1024 -> ey <= 0 -> Z.pos my = c * 2 ^ (- ey) ->
  let p := mul (u_val r) (S754_finite false my ey) in
  (p = S754_zero false \/ exists m e, p = S754_finite false m e) /\
  0 <= Math_floor p < c.
Proof.
  intros Hc Hey Hmy. destruct r as [x Hx]. cbn [u_val].
  destruct x as [[ | ] | | | [ | ] mx ex]; try discriminate Hx.
  - cbn. split; [left; reflexivity | lia].
  - destruct (unit_interval_finite mx ex Hx) as [Hmx Hex].
    cbv zeta. unfold mul. cbn [SFmul xorb].
    set (P := Z.pos (mx * my)). set (E := ex + ey).
    assert (HP : 0 < P) by (subst P; lia).
    destruct (binary_round_aux_bound P E HP) as (m & e & Hm & HEe & Hb & Hres).
    cbv zeta in Hb. set (n1 := fexp prec emax (Zdigits2 P + E) - E) in *.
    rewrite Hres. clear Hres.
    assert (Hpey : 0 < 2 ^ (- ey)) by (apply Z.pow_pos_nonneg; lia).
    assert (Hpex : 0 < 2 ^ (- ex)) by (apply Z.pow_pos_nonneg; lia).
    (* the half unit of the first shift is below the mantissa of the constant *)
    assert (Hhalf : (if 0 <? n1 then 2 ^ (n1 - 1) else 0) < Z.pos my).
    { destruct (0 <? n1) eqn:Hn1; [ | lia]. apply Z.ltb_lt in Hn1.
      unfold fexp, emin, prec, emax in n1.
      destruct (Z.max_spec (Zdigits2 P + E - 53) (3 - 1024 - 53))
        as [[_ Hmax] | [_ Hmax]].
      - (* subnormal result: the shift is at most [- ey] *)
        assert (n1 - 1 < - ey) by lia.
        apply Z.lt_le_trans with (2 ^ (- ey)).
        + apply Z.pow_lt_mono_r; lia.
        + rewrite Hmy. nia.
      - (* normal result: the shift is [digits P - 53] *)
        assert (Hn : n1 = Z.pos (digits2_pos (mx * my)) - 53)
          by (subst n1 P; cbn [Zdigits2] in *; lia).
        pose proof (digits2_bounds (mx * my)) as [Hlo _].
        replace (Z.pos (digits2_pos (mx * my)) - 1) with ((n1 - 1) + 53)
          in Hlo by lia.
        rewrite Z.pow_add_r in Hlo by lia.
        rewrite Pos2Z.inj_mul in Hlo.
        assert (0 < 2 ^ (n1 - 1)) by (apply Z.pow_pos_nonneg; lia).
        nia. }
    (* hence the rounded product stays strictly below [c] *)
    assert (Hlt : m * 2 ^ (e - E) < c * 2 ^ (- E)).
    { apply Z.le_lt_trans with (1 := Hb).
      replace (- E) with (- ex + - ey) by (subst E; lia).
      rewrite Z.pow_add_r by lia.
      assert (Hmx' : Z.pos mx < 2 ^ (- ex)).
      { apply Z.lt_le_trans with (1 := Hmx). apply Z.pow_le_mono_r; lia. }
      subst P. rewrite Pos2Z.inj_mul. nia. }
    assert (HpE : 0 < 2 ^ (e - E)) by (apply Z.pow_pos_nonneg; lia).
    assert (HpnE : 0 < 2 ^ (- E)) by (apply Z.pow_pos_nonneg; subst E; lia).
    destruct m as [ | pm | pm]; [ | | lia].
    + cbn. split; [left; reflexivity | lia].
    + assert (He : e < 10).
      { assert (2 ^ (e - E) < 2 ^ (10 - E)).
        { replace (10 - E) with (10 + - E) by lia.
          rewrite (Z.pow_add_r 2 10 (- E)) by (subst E; lia).
          change (2 ^ 10) with 1024. nia. }
        apply Z.pow_lt_mono_r_iff in H; subst E; lia. }
      replace (e <=? emax - prec) with true
        by (symmetry; apply Z.leb_le; unfold emax, prec; lia).
      split; [right; eauto | ].
      cbn [Math_floor]. destruct (0 <=? e) eqn:He0.
      * apply Z.leb_le in He0.
        replace (e - E) with (e + - E) in Hlt by lia.
        rewrite Z.pow_add_r in Hlt by (subst E; lia).
        assert (0 < 2 ^ e) by (apply Z.pow_pos_nonneg; lia).
        nia.
      * apply Z.leb_gt in He0.
        assert (0 < 2 ^ (- e)) by (apply Z.pow_pos_nonneg; lia).
        split; [apply Z.div_pos; lia | ].
        apply Z.div_lt_upper_bound; [lia | ].
        replace (- E) with (- e + (e - E)) in Hlt by lia.
        rewrite Z.pow_add_r in Hlt by lia. nia.
Qed.

(** [Math.floor (Math.random () * n)] for the four literals of the
    component. *)
Lemma random_below_range (n : Z) (r : Unit01) :
  In n [3; 20; 30; 50] -> 0 <= random_below n r < n.
Proof.
  intro Hn. unfold random_below.
  cbn [In] in Hn. destruct Hn as [<- | [<- | [<- | [<- | []]]]].
  - change (of_int 3) with (S754_finite false 6755399441055744 (-51)).
    now apply mul_unit_bound.
  - change (of_int 20) with (S754_finite false 5629499534213120 (-48)).
    now apply mul_unit_bound.
  - change (of_int 30) with (S754_finite false 8444249301319680 (-48)).
    now apply mul_unit_bound.
  - change (of_int 50) with (S754_finite false 7036874417766400 (-47)).
    now apply mul_unit_bound.
Qed.

(** No product of the component is NaN or infinite: [Math_floor] is only
    applied to [+0] and to finite positive numbers. *)
Lemma mul_unit_finite (n : Z) (r : Unit01) :
  In n [3; 20; 30; 50] ->
  mul (u_val r) (of_int n) = S754_zero false \/
  exists m e, mul (u_val r) (of_int n) = S754_finite false m e.
Proof.
  intro Hn. cbn [In] in Hn. destruct Hn as [<- | [<- | [<- | [<- | []]]]].
  - change (of_int 3) with (S754_finite false 6755399441055744 (-51)).
    now apply mul_unit_bound with (c := 3).
  - change (of_int 20) with (S754_finite false 5629499534213120 (-48)).
    now apply mul_unit_bound with (c := 20).
  - change (of_int 30) with (S754_finite false 8444249301319680 (-48)).
    now apply mul_unit_bound with (c := 30).
  - change (of_int 50) with (S754_finite false 7036874417766400 (-47)).
    now apply mul_unit_bound with (c := 50).
Qed.

End JsNumberFacts.

(** ** The synthesized report *)

Module SynthFacts.
Import JsNumber JsNumberFacts Synth.

Local Open Scope string_scope.
Local Open Scope Z_scope.

(** [mockResult] reads the eight draws at the cursor, in order, and moves the
    cursor past them. *)
Lemma mockResult_eq (g : Rng) (i : nat) :
  mockResult g i =
  ({| healthScore := random_below 30 (g i) + 70;
      diseaseDetection := {|
        detected := random_above_0_7 (g (1 + i)%nat);
        diseases := if random_above_0_7 (g (2 + i)%nat)
                    then ["Leaf Blight"; "Powdery Mildew"] else [];
        confidence := random_below 20 (g (3 + i)%nat) + 80 |};
      recommendations := recommendations_text;
      marketPrediction := {|
        expectedPrice := random_below 50 (g (4 + i)%nat) + 25;
        demandLevel := js_index levels (random_below 3 (g (5 + i)%nat));
        bestHarvestTime := "Next 2-3 weeks" |};
      environmentalFactors := {|
        soilHealth := random_below 30 (g (6 + i)%nat) + 70;
        weatherImpact := "Favorable conditions expected";
        pestRisk := js_index levels (random_below 3 (g (7 + i)%nat)) |} |},
   (8 + i)%nat).
Proof. reflexivity. Qed.

Lemma js_index_levels (k : Z) :
  0 <= k < 3 ->
  In (js_index levels k) [Some "Low"; Some "Medium"; Some "High"].
Proof.
  intro Hk.
  assert (Hc : k = 0 \/ k = 1 \/ k = 2) by lia.
  destruct Hc as [-> | [-> | ->]]; cbn; auto.
Qed.

Lemma random_level (r : Unit01) :
  In (js_index levels (random_below 3 r)) [Some "Low"; Some "Medium"; Some "High"].
Proof. apply js_index_levels, random_below_range. cbn; auto. Qed.

(** C7. Every synthesized result has its health score and soil health
    between 70 and 100, its confidence between 80 and 100, its expected price
    between 25 and 75, and a demand level and a pest risk among Low, Medium
    and High. *)
Theorem synthesized_ranges (g : Rng) (i : nat) :
  let r := synthesize g i in
  70 <= healthScore r <= 100 /\
  70 <= soilHealth (environmentalFactors r) <= 100 /\
  80 <= confidence (diseaseDetection r) <= 100 /\
  25 <= expectedPrice (marketPrediction r) <= 75 /\
  In (demandLevel (marketPrediction r)) [Some "Low"; Some "Medium"; Some "High"] /\
  In (pestRisk (environmentalFactors r)) [Some "Low"; Some "Medium"; Some "High"].
Proof.
  unfold synthesize. rewrite mockResult_eq. cbn [fst healthScore soilHealth
    environmentalFactors confidence diseaseDetection expectedPrice
    marketPrediction demandLevel pestRisk].
  pose proof (random_below_range 30 (g i) ltac:(cbn; auto)).
  pose proof (random_below_range 30 (g (6 + i)%nat) ltac:(cbn; auto)).
  pose proof (random_below_range 20 (g (3 + i)%nat) ltac:(cbn; auto)).
  pose proof (random_below_range 50 (g (4 + i)%nat) ltac:(cbn; auto)).
  repeat split; try lia; apply random_level.
Qed.

(** C10. The randomized integers stay strictly below the stated maxima:
    health score, soil health and confidence are at most 99 and the expected
    price at most 74; 100 and 75 are never produced. *)
Theorem synthesized_below_maxima (g : Rng) (i : nat) :
  let r := synthesize g i in
  healthScore r <= 99 /\
  soilHealth (environmentalFactors r) <= 99 /\
  confidence (diseaseDetection r) <= 99 /\
  expectedPrice (marketPrediction r) <= 74 /\
  healthScore r <> 100 /\
  soilHealth (environmentalFactors r) <> 100 /\
  confidence (diseaseDetection r) <> 100 /\
  expectedPrice (marketPrediction r) <> 75.
Proof.
  unfold synthesize. rewrite mockResult_eq. cbn [fst healthScore soilHealth
    environmentalFactors confidence diseaseDetection expectedPrice
    marketPrediction].
  pose proof (random_below_range 30 (g i) ltac:(cbn; auto)).
  pose proof (random_below_range 30 (g (6 + i)%nat) ltac:(cbn; auto)).
  pose proof (random_below_range 20 (g (3 + i)%nat) ltac:(cbn; auto)).
  pose proof (random_below_range 50 (g (4 + i)%nat) ltac:(cbn; auto)).
  repeat split; lia.
Qed.

(** C1. [detected] and [diseases] come from two separate calls of
    [Math.random()]: with 0.8 for the first and 0.5 for the second, the
    result reports a detection and lists no disease. *)
Theorem detected_and_diseases_disagree :
  let r := synthesize detected_without_diseases 0 in
  detected (diseaseDetection r) = true /\ diseases (diseaseDetection r) = [].
Proof. vm_compute. split; reflexivity. Qed.

End SynthFacts.

(** ** [JSON.parse] undoes [JSON.stringify] *)

Module JsonFacts.
Import Json.

Local Open Scope string_scope.

(** *** Strings *)

Lemma append_assoc (a b c : string) : (a ++ b) ++ c = a ++ (b ++ c).
Proof. induction a as [ | x a IH]; simpl; [ | rewrite IH]; reflexivity. Qed.

Lemma append_nil_r (a : string) : a ++ EmptyString = a.
Proof. induction a as [ | x a IH]; simpl; [ | rewrite IH]; reflexivity. Qed.

Lemma length_append (a b : string) :
  String.length (a ++ b) = (String.length a + String.length b)%nat.
Proof. induction a as [ | x a IH]; simpl; [ | rewrite IH]; reflexivity. Qed.

(** A case analysis over the 256 characters. *)
Ltac each_char c :=
  destruct c as [[ | ] [ | ] [ | ] [ | ] [ | ] [ | ] [ | ] [ | ]].

(** *** White space *)

Lemma skip_ws_blank (a b : string) :
  blank a = true -> skip_ws (a ++ b) = skip_ws b.
Proof.
  induction a as [ | c a IH]; simpl; intro H; [reflexivity | ].
  apply andb_prop in H. destruct H as [Hc Ha]. rewrite Hc. auto.
Qed.

Lemma blank_append (a b : string) :
  blank a = true -> blank b = true -> blank (a ++ b) = true.
Proof.
  induction a as [ | c a IH]; simpl; intros Ha Hb; [assumption | ].
  apply andb_prop in Ha. destruct Ha as [Hc Ha]. rewrite Hc. simpl. auto.
Qed.

Lemma value_head_not_ws (c : ascii) :
  is_value_head c = true ->
  is_ws c = false /\ Ascii.eqb c "]" = false /\ Ascii.eqb c "}" = false.
Proof. each_char c; intro H; try discriminate H; repeat split. Qed.

Lemma skip_ws_value_head (c : ascii) (s : string) :
  is_value_head c = true -> skip_ws (String c s) = String c s.
Proof.
  intro H. apply value_head_not_ws in H. destruct H as [H _].
  simpl. now rewrite H.
Qed.

(** *** Numbers *)

Lemma string_of_uint_digit (d : Decimal.uint) :
  match NilEmpty.string_of_uint d with
  | EmptyString => d = Decimal.Nil
  | String c _ => is_digit c = true
  end.
Proof. destruct d; reflexivity. Qed.

Lemma span_digits_uint (d : Decimal.uint) (rest : string) :
  match rest with
  | EmptyString => True
  | String c _ => is_digit c = false
  end ->
  span_digits (NilEmpty.string_of_uint d ++ rest) =
  (NilEmpty.string_of_uint d, rest).
Proof.
  intro Hrest. induction d; cbn [NilEmpty.string_of_uint append span_digits];
    try (change (is_digit _) with true; cbv iota; rewrite IHd; reflexivity).
  destruct rest as [ | c rest]; [reflexivity | ].
  cbn [span_digits]. now rewrite Hrest.
Qed.

(** The digits of a natural number: at least one, and a leading zero only
    for zero itself. *)
Lemma to_uint_shape (n : N) :
  exists c t, NilEmpty.string_of_uint (N.to_uint n) = String c t /\
              is_digit c = true /\
              (Ascii.eqb c "0" && negb (String.eqb t EmptyString) = false).
Proof.
  assert (Hnorm : Decimal.unorm (N.to_uint n) = N.to_uint n).
  { pose proof (DecimalN.Unsigned.to_of (N.to_uint n)) as H.
    rewrite DecimalN.Unsigned.of_to in H. symmetry. exact H. }
  remember (N.to_uint n) as d eqn:Hd. clear Hd n.
  pose proof (unorm_nonnil d) as Hnn. rewrite Hnorm in Hnn.
  destruct d as [ | d | d | d | d | d | d | d | d | d | d];
    try congruence;
    try (do 2 eexists; split; [reflexivity | split; reflexivity]).
  (* a leading zero: the number is zero *)
  assert (Hd : d = Decimal.Nil).
  { unfold Decimal.unorm in Hnorm. cbn [Decimal.nzhead] in Hnorm.
    destruct (Decimal.nzhead d) eqn:Hz; try congruence.
    exfalso. exact (nzhead_nonzero _ _ Hz). }
  subst d. do 2 eexists. split; [reflexivity | split; reflexivity].
Qed.

Lemma parse_natural_digits (n : N) (rest : string) :
  delimited rest = true ->
  parse_natural (digits_of n ++ rest) = Some (n, rest).
Proof.
  intro Hrest. unfold parse_natural, digits_of.
  assert (Hnd : match rest with
                | EmptyString => True
                | String c _ => is_digit c = false
                end).
  { destruct rest as [ | c rest]; [exact I | ].
    cbn [delimited] in Hrest. apply andb_prop in Hrest.
    destruct Hrest as [H _]. now apply negb_true_iff in H. }
  assert (Hcont : continues_number rest = false).
  { destruct rest as [ | c rest]; [reflexivity | ].
    cbn [delimited] in Hrest. apply andb_prop in Hrest.
    destruct Hrest as [_ H]. now apply negb_true_iff in H. }
  rewrite span_digits_uint by exact Hnd.
  destruct (to_uint_shape n) as (c & t & Heq & _ & Hlead).
  rewrite Heq, Hlead, Hcont, <- Heq.
  rewrite NilEmpty.usu, DecimalN.Unsigned.of_to. reflexivity.
Qed.

Lemma digit_not_minus (c : ascii) :
  is_digit c = true -> Ascii.eqb c "-" = false.
Proof. each_char c; intro H; try discriminate H; reflexivity. Qed.

Lemma parse_number_to_string (n : Z) (rest : string) :
  delimited rest = true ->
  parse_number (number_to_string n ++ rest) = Some (n, rest).
Proof.
  intro Hrest. unfold number_to_string.
  destruct (Z.ltb_spec n 0) as [Hn | Hn].
  - cbn [append parse_number]. change (Ascii.eqb "-" "-") with true. cbv iota.
    rewrite parse_natural_digits by exact Hrest.
    rewrite Z2N.id by lia. f_equal. f_equal. lia.
  - pose proof (parse_natural_digits (Z.to_N n) rest Hrest) as Hp.
    unfold digits_of in *.
    destruct (to_uint_shape (Z.to_N n)) as (c & t & Heq & Hdig & _).
    rewrite Heq in *. cbn [append parse_number] in *.
    rewrite (digit_not_minus c Hdig), Hp, Z2N.id by lia. reflexivity.
Qed.

Lemma number_to_string_head (n : Z) :
  exists c t, number_to_string n = String c t /\
              (Ascii.eqb c "-" = true \/ is_digit c = true).
Proof.
  unfold number_to_string. destruct (n <? 0)%Z.
  - do 2 eexists. split; [reflexivity | left; reflexivity].
  - unfold digits_of.
    destruct (to_uint_shape (Z.to_N n)) as (c & t & Heq & Hdig & _).
    exists c, t. auto.
Qed.

(** *** String literals *)

Lemma parse_escape_char (c : ascii) (rest : string) :
  parse_string_body (escape_char c ++ rest) =
  cons_result c (parse_string_body rest).
Proof. each_char c; reflexivity. Qed.

Lemma parse_escape (s rest : string) :
  parse_string_body (escape s ++ String dquote rest) = Some (s, rest).
Proof.
  induction s as [ | c s IH]; [reflexivity | ].
  cbn [escape]. rewrite append_assoc, parse_escape_char, IH. reflexivity.
Qed.

(** *** Values *)

Ltac norm_append :=
  repeat first [rewrite append_assoc | progress cbn [append nl]].

Lemma number_head_is_value_head (c : ascii) :
  Ascii.eqb c "-" = true \/ is_digit c = true -> is_value_head c = true.
Proof. each_char c; intros [H | H]; try discriminate H; reflexivity. Qed.

Lemma serialize_head (ind : string) (v : value) :
  exists c t, SerializeJSONProperty ind v = String c t /\ is_value_head c = true.
Proof.
  destruct v as [ | [ | ] | n | s | [ | x l] | [ | x l]];
    try (do 2 eexists; split; [reflexivity | reflexivity]).
  destruct (number_to_string_head n) as (c & t & Heq & Hc).
  exists c, t. split; [exact Heq | now apply number_head_is_value_head].
Qed.

Lemma skip_ws_serialized (ind : string) (v : value) (rest : string) :
  skip_ws (SerializeJSONProperty ind v ++ rest) =
  SerializeJSONProperty ind v ++ rest.
Proof.
  destruct (serialize_head ind v) as (c & t & Heq & Hc). rewrite Heq.
  cbn [append]. now apply skip_ws_value_head.
Qed.

Lemma concat_map_cons {A : Type} (sep : string) (f : A -> string)
      (x : A) (l : list A) (tail : string) :
  String.concat sep (map f (x :: l)) ++ tail =
  f x ++ match l with
         | [] => tail
         | _ :: _ => sep ++ String.concat sep (map f l) ++ tail
         end.
Proof.
  destruct l as [ | y l]; [reflexivity | ].
  cbn [map String.concat]. now rewrite !append_assoc.
Qed.

Lemma serialize_array (ind : string) (x : value) (l : list value) (rest : string) :
  SerializeJSONProperty ind (JArr (x :: l)) ++ rest =
  String "[" (String newline
    ((ind ++ gap)
     ++ (String.concat ("," ++ nl ++ ind ++ gap)
           (map (SerializeJSONProperty (ind ++ gap)) (x :: l))
         ++ nl ++ ind ++ String "]" rest))).
Proof. cbn [SerializeJSONProperty]. now norm_append. Qed.

Lemma serialize_object (ind : string) (kv : string * value)
      (l : list (string * value)) (rest : string) :
  SerializeJSONProperty ind (JObj (kv :: l)) ++ rest =
  String "{" (String newline
    ((ind ++ gap)
     ++ (String.concat ("," ++ nl ++ ind ++ gap)
           (map (member_text (ind ++ gap)) (kv :: l))
         ++ nl ++ ind ++ String "}" rest))).
Proof. cbn [SerializeJSONProperty]. now norm_append. Qed.

Lemma parse_value_number (f : nat) (c : ascii) (s : string) :
  Ascii.eqb c "-" = true \/ is_digit c = true ->
  parse_value (S f) (String c s) =
  match parse_number (String c s) with
  | Some (n, rest) => Some (JNum n, rest)
  | None => None
  end.
Proof. each_char c; intros [H | H]; try discriminate H; reflexivity. Qed.

Lemma blank_gap (ind : string) : blank ind = true -> blank (ind ++ gap) = true.
Proof. intro H. now apply blank_append. Qed.

Lemma need_positive (v : value) : (1 <= need v)%nat.
Proof. destruct v; cbn [need]; lia. Qed.

(** The text that closes an array or an object and what follows an element:
    the parser finds the closing bracket behind the white space. *)
Lemma skip_ws_close (close : string) (c : ascii) (rest : string) :
  blank close = true -> is_ws c = false ->
  skip_ws (String newline (close ++ String c rest)) = String c rest.
Proof.
  intros Hb Hc. cbn [skip_ws].
  change (is_ws newline) with true. cbv iota.
  rewrite skip_ws_blank by exact Hb. cbn [skip_ws]. now rewrite Hc.
Qed.

(** The text of a value parses back to the value, and so do the texts of a
    non-empty list of elements and of a non-empty list of members up to their
    closing bracket, whenever the fuel covers [need]. *)
Lemma parse_serialized (f : nat) :
  (forall v ind rest,
      (need v <= f)%nat -> blank ind = true -> delimited rest = true ->
      parse_value f (SerializeJSONProperty ind v ++ rest) = Some (v, rest))
  /\
  (forall l ind close rest,
      l <> [] -> (need_elements l <= f)%nat ->
      blank ind = true -> blank close = true ->
      parse_elements f
        (String.concat ("," ++ nl ++ ind) (map (SerializeJSONProperty ind) l)
         ++ nl ++ close ++ String "]" rest) = Some (l, rest))
  /\
  (forall l ind close rest,
      l <> [] -> (need_members l <= f)%nat ->
      blank ind = true -> blank close = true ->
      parse_members f
        (String.concat ("," ++ nl ++ ind) (map (member_text ind) l)
         ++ nl ++ close ++ String "}" rest) = Some (l, rest)).
Proof.
  induction f as [ | f (IHv & IHe & IHm)].
  - split; [ | split].
    + intros v ind rest Hn. pose proof (need_positive v). lia.
    + intros [ | x l] ind close rest Hl Hn; [congruence | ].
      cbn in Hn. lia.
    + intros [ | x l] ind close rest Hl Hn; [congruence | ].
      cbn in Hn. lia.
  - split; [ | split].
    + (* a value *)
      intros v ind rest Hn Hind Hrest.
      destruct v as [ | [ | ] | n | s | [ | x l] | [ | kv l]];
        try reflexivity.
      * (* number *)
        destruct (number_to_string_head n) as (c & t & Heq & Hc).
        cbn [SerializeJSONProperty]. 
        pose proof (parse_number_to_string n rest Hrest) as Hp.
        rewrite Heq in *. cbn [append] in *.
        rewrite parse_value_number by exact Hc. now rewrite Hp.
      * (* string *)
        cbn [SerializeJSONProperty QuoteJSONString append].
        rewrite append_assoc. cbn [append].
        change (parse_value (S f) (String dquote ?s)) with
          (match parse_string_body s with
           | Some (str, r) => Some (JStr str, r)
           | None => None
           end).
        now rewrite parse_escape.
      * (* array *)
        rewrite serialize_array.
        set (T := String.concat _ _ ++ _).
        assert (HT : exists c T', T = String c T' /\ is_value_head c = true).
        { subst T. rewrite concat_map_cons.
          destruct (serialize_head (ind ++ gap) x) as (c & t & Heq & Hc).
          rewrite Heq. cbn [append]. eauto. }
        destruct HT as (c & T' & HT & Hc).
        change (parse_value (S f) (String "[" ?s)) with
          (match skip_ws s with
           | String d r =>
               if Ascii.eqb d "]" then Some (JArr [], r)
               else match parse_elements f (String d r) with
                    | Some (l0, r') => Some (JArr l0, r')
                    | None => None
                    end
           | EmptyString => None
           end).
        cbn [skip_ws]. change (is_ws newline) with true. cbv iota.
        rewrite skip_ws_blank by now apply blank_gap.
        rewrite HT, (skip_ws_value_head c T' Hc).
        destruct (value_head_not_ws c Hc) as (_ & Hclose & _).
        rewrite Hclose, <- HT. subst T.
        rewrite IHe; [reflexivity | discriminate | | now apply blank_gap | exact Hind].
        cbn [need] in Hn. unfold need_elements. lia.
      * (* object *)
        rewrite serialize_object.
        set (T := String.concat _ _ ++ _).
        assert (HT : exists T', T = String dquote T').
        { subst T. rewrite concat_map_cons. destruct kv as [k x].
          cbn [member_text QuoteJSONString append]. eauto. }
        destruct HT as (T' & HT).
        change (parse_value (S f) (String "{" ?s)) with
          (match skip_ws s with
           | String d r =>
               if Ascii.eqb d "}" then Some (JObj [], r)
               else match parse_members f (String d r) with
                    | Some (l0, r') => Some (JObj l0, r')
                    | None => None
                    end
           | EmptyString => None
           end).
        cbn [skip_ws]. change (is_ws newline) with true. cbv iota.
        rewrite skip_ws_blank by now apply blank_gap.
        rewrite HT. cbn [skip_ws].
        change (is_ws dquote) with false. cbv iota.
        change (Ascii.eqb dquote "}") with false. cbv iota.
        rewrite <- HT. subst T.
        rewrite IHm; [reflexivity | discriminate | | now apply blank_gap | exact Hind].
        cbn [need] in Hn. unfold need_members. lia.
    + (* the elements of an array *)
      intros [ | x l] ind close rest Hl Hn Hind Hclose; [congruence | ].
      unfold need_elements in Hn. cbn [map list_sum fold_right] in Hn.
      rewrite concat_map_cons.
      cbn [parse_elements].
      destruct l as [ | y l]; norm_append.
      * rewrite IHv by (try reflexivity; try assumption; lia).
        rewrite skip_ws_close by (assumption || reflexivity).
        reflexivity.
      * rewrite IHv by (try reflexivity; try assumption; lia).
        cbn [skip_ws]. change (is_ws ",") with false. cbv iota.
        change (Ascii.eqb "," ",") with true. cbv iota.
        cbn [skip_ws]. change (is_ws newline) with true. cbv iota.
        rewrite skip_ws_blank by exact Hind.
        rewrite concat_map_cons, skip_ws_serialized, <- concat_map_cons.
        assert (Hfuel : (need_elements (y :: l) <= f)%nat)
          by (unfold need_elements; cbn [map list_sum fold_right] in *; lia).
        pose proof (IHe (y :: l) ind close rest ltac:(discriminate)
                      Hfuel Hind Hclose) as He.
        cbn [append nl] in He. now rewrite He.
    + (* the members of an object *)
      intros [ | [k x] l] ind close rest Hl Hn Hind Hclose; [congruence | ].
      unfold need_members in Hn. cbn [map list_sum fold_right snd] in Hn.
      rewrite concat_map_cons.
      cbn [member_text]. unfold QuoteJSONString.
      assert (Hq : forall t, skip_ws (String dquote t) = String dquote t)
        by reflexivity.
      destruct l as [ | [k' y] l]; norm_append; cbn [parse_members];
        change (Ascii.eqb dquote dquote) with true; cbv iota;
        rewrite parse_escape; cbn [skip_ws];
        change (is_ws ":") with false; cbv iota;
        change (Ascii.eqb ":" ":") with true; cbv iota;
        cbn [skip_ws]; change (is_ws " ") with true; cbv iota;
        rewrite skip_ws_serialized;
        rewrite IHv by (try reflexivity; try assumption; lia).
      * rewrite skip_ws_close by (assumption || reflexivity).
        reflexivity.
      * cbn [skip_ws]. change (is_ws ",") with false. cbv iota.
        change (Ascii.eqb "," ",") with true. cbv iota.
        cbn [skip_ws]. change (is_ws newline) with true. cbv iota.
        rewrite skip_ws_blank by exact Hind.
        assert (Hfuel : (need_members ((k', y) :: l) <= f)%nat)
          by (unfold need_members; cbn [map list_sum fold_right snd] in *; lia).
        pose proof (IHm ((k', y) :: l) ind close rest ltac:(discriminate)
                      Hfuel Hind Hclose) as He.
        cbn [append nl] in He.
        rewrite concat_map_cons in He |- *.
        cbn [member_text] in He |- *. unfold QuoteJSONString in He |- *.
        cbn [append] in He |- *. rewrite Hq. now rewrite He.
Qed.

(** Induction on values, through the lists of elements and members. *)
Lemma value_induction (P : value -> Prop) :
  P JNull -> (forall b, P (JBool b)) -> (forall n, P (JNum n)) ->
  (forall s, P (JStr s)) ->
  (forall l, Forall P l -> P (JArr l)) ->
  (forall l, Forall (fun kv => P (snd kv)) l -> P (JObj l)) ->
  forall v, P v.
Proof.
  intros Hnull Hbool Hnum Hstr Harr Hobj.
  fix IH 1. intros [ | b | n | s | l | l].
  - exact Hnull.
  - apply Hbool.
  - apply Hnum.
  - apply Hstr.
  - apply Harr. induction l as [ | x l IHl]; constructor; [apply IH | exact IHl].
  - apply Hobj. induction l as [ | [k x] l IHl]; constructor;
      [apply IH | exact IHl].
Qed.

Lemma need_sum_le_concat {A : Type} (f : A -> string) (m : A -> nat)
      (sep : string) (l : list A) :
  (1 <= String.length sep)%nat ->
  Forall (fun a => (m a <= String.length (f a))%nat) l ->
  (list_sum (map (fun a => S (m a)) l)
   <= String.length (String.concat sep (map f l)) + 1)%nat.
Proof.
  intros Hsep Hall. induction Hall as [ | x l Hx Hall IH]; [cbn; lia | ].
  destruct l as [ | y l].
  - cbn. lia.
  - cbn [map list_sum fold_right String.concat] in *.
    rewrite !length_append. lia.
Qed.

(** The fuel [JSON_parse] takes from the length of a text covers what the
    serialized value needs. *)
Lemma need_le_length (v : value) :
  forall ind, (need v <= String.length (SerializeJSONProperty ind v))%nat.
Proof.
  induction v as [ | b | n | s | l IH | l IH] using value_induction; intro ind.
  - cbn. lia.
  - destruct b; cbn; lia.
  - destruct (number_to_string_head n) as (c & t & Heq & _).
    cbn [SerializeJSONProperty need]. rewrite Heq. cbn. lia.
  - cbn. lia.
  - destruct l as [ | x l]; [cbn; lia | ].
    cbn [SerializeJSONProperty need].
    rewrite !length_append.
    assert (Hall : Forall (fun a => (need a <= String.length
                     (SerializeJSONProperty (ind ++ gap) a))%nat) (x :: l)).
    { revert IH. apply Forall_impl. intros a Ha. apply Ha. }
    pose proof (need_sum_le_concat (SerializeJSONProperty (ind ++ gap)) need
                  ("," ++ nl ++ ind ++ gap) (x :: l)
                  ltac:(cbn; lia) Hall) as Hsum.
    cbn [String.length] in *. lia.
  - destruct l as [ | kv l]; [cbn; lia | ].
    cbn [SerializeJSONProperty need].
    rewrite !length_append.
    assert (Hall : Forall (fun a : string * value =>
                     (need (snd a) <= String.length
                        (let (k, x) := a in
                         QuoteJSONString k ++ ": "
                         ++ SerializeJSONProperty (ind ++ gap) x))%nat)
                     (kv :: l)).
    { revert IH. apply Forall_impl. intros [k a] Ha. cbn [snd] in *.
      rewrite !length_append. specialize (Ha (ind ++ gap)). lia. }
    pose proof (need_sum_le_concat _ (fun a : string * value => need (snd a))
                  ("," ++ nl ++ ind ++ gap) (kv :: l)
                  ltac:(cbn; lia) Hall) as Hsum.
    cbn [String.length] in *. lia.
Qed.

(** The round trip of the two platform functions: parsing the text of a value
    gives the value back. *)
Theorem parse_stringify (v : value) : JSON_parse (JSON_stringify v) = Some v.
Proof.
  unfold JSON_parse, JSON_stringify.
  set (text := SerializeJSONProperty EmptyString v).
  assert (Hskip : skip_ws text = text).
  { pose proof (skip_ws_serialized EmptyString v EmptyString) as H.
    now rewrite append_nil_r in H. }
  rewrite Hskip.
  destruct (parse_serialized (S (String.length text))) as (Hv & _ & _).
  specialize (Hv v EmptyString EmptyString).
  rewrite append_nil_r in Hv. fold text in Hv.
  rewrite Hv; [reflexivity | | reflexivity | reflexivity].
  pose proof (need_le_length v EmptyString). fold text in H. lia.
Qed.

End JsonFacts.

(** ** The component *)

Module ComponentFacts.
Import JsNumber Synth Json JsonFacts Component.

Local Open Scope string_scope.

(** Closed goals about concrete runs are settled by evaluation. *)
Ltac run := vm_compute; reflexivity.

(** *** Export *)

Lemma strings_of_map (l : list string) : strings_of (map JStr l) = Some l.
Proof.
  induction l as [ | s l IH]; [reflexivity | ].
  cbn [map strings_of]. now rewrite IH.
Qed.

(** Reading the exported object back gives every field of the result. *)
Lemma read_result_to_value (r : AnalysisResult) :
  read_result (result_to_value r) = Some r.
Proof.
  destruct r as [hs [det dis conf] recs [price demand harvest]
                   [soil weather pest]].
  unfold read_result, result_to_value, read_number, read_bool, read_string,
    read_string_opt, read_strings.
  cbn [healthScore diseaseDetection recommendations marketPrediction
       environmentalFactors detected diseases confidence expectedPrice
       demandLevel bestHarvestTime soilHealth weatherImpact pestRisk].
  destruct demand as [demand | ], pest as [pest | ];
    cbn; rewrite !strings_of_map; reflexivity.
Qed.

(** C8. For a stored result, as the page shows it, "Export Report" offers a
    JSON document that parses back to a structure equal to the result field
    for field, and the click leaves the state of the component as it was. *)
Theorem export_round_trip (crop : option Crop) (g : Rng) (now : string)
        (w : World) (r : AnalysisResult) :
  mounted w = true ->
  analysisResult (shown w) = Some r ->
  exists d w',
    step crop g (ClickExport now) w = Some w' /\
    signals w' = Downloaded d :: signals w /\
    ui w' = ui w /\
    shown w' = shown w /\
    match JSON_parse (download_body d) with
    | Some v => read_result v
    | None => None
    end = Some r.
Proof.
  intros Hm Hr. cbn [step]. unfold export_onClick. rewrite Hm, Hr.
  do 2 eexists. split; [reflexivity | ]. cbn [signals ui shown download_body].
  split; [reflexivity | ]. split; [reflexivity | ]. split; [reflexivity | ].
  cbn [download_body]. rewrite parse_stringify. apply read_result_to_value.
Qed.

(** *** The steps of the component *)

Lemma mockResult_synthesize (g : Rng) (i : nat) :
  mockResult g i = (synthesize g i, (8 + i)%nat).
Proof. unfold synthesize. now rewrite !SynthFacts.mockResult_eq. Qed.

(** Once the instance is unmounted no event changes a state cell, what was
    rendered or what was signalled, and it stays unmounted. *)
Lemma step_unmounted (crop : option Crop) (g : Rng) (e : Event) (w w' : World) :
  mounted w = false -> step crop g e w = Some w' ->
  ui w' = ui w /\ shown w' = shown w /\ signals w' = signals w /\
  mounted w' = false.
Proof.
  intros Hm Hs. destruct w as [s sh m t r c sg]. cbn in Hm. subst m.
  destruct e; cbn [step ui shown mounted timers reads cursor signals andb] in Hs;
    try discriminate Hs.
  - destruct (nth_error r i); [ | discriminate].
    injection Hs as <-. repeat split.
  - destruct t; [discriminate | ]. destruct (mockResult g c).
    injection Hs as <-. repeat split.
  - injection Hs as <-. repeat split.
Qed.

Lemma exec_unmounted (crop : option Crop) (g : Rng) (es : list Event) :
  forall w w', mounted w = false -> exec crop g es w = Some w' ->
  ui w' = ui w /\ shown w' = shown w /\ signals w' = signals w.
Proof.
  induction es as [ | e es IH]; intros w w' Hm He.
  - cbn in He. injection He as <-. repeat split.
  - cbn [exec] in He.
    destruct (step crop g e w) as [w1 | ] eqn:Hs; [ | discriminate].
    destruct (step_unmounted crop g e w w1 Hm Hs) as (Hu & Hsh & Hsg & Hm1).
    destruct (IH w1 w' Hm1 He) as (Hu' & Hsh' & Hsg').
    repeat split; congruence.
Qed.

(** *** Closing *)

(** The component keeps no cancellation flag of its own: a click on "Close"
    only calls [onClose], and for as long as the host leaves the component
    mounted the continuation of [simulateAIAnalysis] stores its result. *)
Lemma close_click_alone_cancels_nothing (crop : option Crop) (g : Rng)
      (w : World) (n : nat) :
  mounted w = true -> timers w = S n ->
  exists w1 w2,
    step crop g ClickClose w = Some w1 /\
    ui w1 = ui w /\ timers w1 = timers w /\
    signals w1 = CloseRequested :: signals w /\
    step crop g TimerFires w1 = Some w2 /\
    analysisResult (ui w2) = Some (synthesize g (cursor w)) /\
    analyzing (ui w2) = false.
Proof.
  intros Hm Ht. destruct w as [s sh m t r c sg]. cbn in Hm, Ht. subst m t.
  do 2 eexists. split; [reflexivity | ].
  do 3 (split; [reflexivity | ]).
  cbn [step timers cursor]. rewrite mockResult_synthesize.
  split; [reflexivity | ]. split; reflexivity.
Qed.

(** C2. When the workflow is closed while an analysis is in flight, the
    delay still elapses and a report is still built from the next draws, but
    it is discarded: whatever happens afterwards, no cell of the state
    changes, so no result is stored and the component is never in Complete;
    what was rendered does not change either. *)
Theorem close_discards_pending_result (crop : option Crop) (g : Rng)
        (w : World) (n : nat) :
  mounted w = true -> analyzing (ui w) = true -> timers w = S n ->
  (forall es w',
      exec crop g (close ++ es) w = Some w' ->
      ui w' = ui w /\ shown w' = shown w /\
      analysisResult (ui w') = analysisResult (ui w) /\
      phase crop (ui w') = Analyzing) /\
  (exists w',
      exec crop g (close ++ [TimerFires]) w = Some w' /\
      timers w' = n /\ cursor w' = (8 + cursor w)%nat /\
      signals w' = CloseRequested :: signals w).
Proof.
  intros Hm Han Ht. destruct w as [s sh m t r c sg].
  cbn in Hm, Han, Ht. subst m t. split.
  - intros es w' He. unfold close in He. cbn [app exec step mounted] in He.
    apply exec_unmounted in He; [ | reflexivity].
    cbn [ui shown signals] in He. destruct He as (Hu & Hsh & _).
    cbn [ui shown]. rewrite Hu, Hsh.
    repeat split. unfold phase. now rewrite Han.
  - unfold close. cbn [app exec step mounted timers cursor].
    rewrite mockResult_synthesize. eexists. split; [reflexivity | ].
    repeat split.
Qed.

(** *** Selecting an image *)

Lemma nth_error_snoc {A : Type} (l : list A) (x : A) :
  nth_error (l ++ [x]) (List.length l) = Some x.
Proof. induction l as [ | y l IH]; [reflexivity | exact IH]. Qed.

(** C3, as the component behaves.  Where the file input is shown, choosing a
    file makes it the selected image and, once its read succeeds, its data
    URL the preview; the stored result, the [analyzing] flag and the analysis
    type stay as they were. *)
Theorem select_image_keeps_result (crop : option Crop) (g : Rng) (w : World)
        (f : File) (url : string) :
  mounted w = true -> upload_rendered (shown w) = true ->
  file_data f = Some url ->
  exists w',
    exec crop g [PickFile (Some f); ReadSettles (List.length (reads w))] w
      = Some w' /\
    selectedImage (ui w') = Some f /\
    imagePreview (ui w') = url /\
    analysisResult (ui w') = analysisResult (ui w) /\
    analyzing (ui w') = analyzing (ui w) /\
    analysisType (ui w') = analysisType (ui w).
Proof.
  intros Hm Hup Hf. cbn [exec step handleImageUpload]. rewrite Hm, Hup.
  cbn [andb reads ui mounted]. rewrite nth_error_snoc.
  eexists. split; [reflexivity | ].
  unfold commit, reader_settles. cbn [mounted ui]. rewrite ?Hm, Hf.
  repeat split.
Qed.

(** C3 fails as stated: with a crop that carries an image, an analysis is
    run to its end and an image is chosen afterwards, each event in a task
    of its own; the earlier result is still stored and the component is
    still in its Complete state. *)
Lemma select_image_in_complete_keeps_result :
  exists w,
    exec (Some tomato) detected_without_diseases
      (each_in_its_task
         [ClickAnalyze; TimerFires; PickFile (Some leaf_jpg); ReadSettles 0])
      start = Some w /\
    selectedImage (ui w) = Some leaf_jpg /\
    analysisResult (ui w) = Some (synthesize detected_without_diseases 0) /\
    phase (Some tomato) (ui w) = Complete.
Proof.
  eexists. split; [run | ]. split; [run | ].
  split; run.
Qed.

(** *** Removing the image *)

(** C4, as the component behaves.  "Remove Image" clears the selected image
    and the preview and nothing else: the stored result, the [analyzing]
    flag and the analysis type stay.  Without a result, without an analysis
    in flight and without a crop image the component is back in Idle. *)
Theorem remove_image_keeps_result (crop : option Crop) (g : Rng) (w : World) :
  mounted w = true -> remove_rendered (shown w) = true ->
  exists w',
    step crop g ClickRemove w = Some w' /\
    selectedImage (ui w') = None /\
    imagePreview (ui w') = EmptyString /\
    analysisResult (ui w') = analysisResult (ui w) /\
    analyzing (ui w') = analyzing (ui w) /\
    analysisType (ui w') = analysisType (ui w) /\
    (analysisResult (ui w) = None -> analyzing (ui w) = false ->
     crop_image crop = false -> phase crop (ui w') = Idle).
Proof.
  intros Hm Hr. cbn [step]. rewrite Hm, Hr. cbn [andb].
  eexists. split; [reflexivity | ]. cbn [with_ui ui].
  repeat split.
  intros Hres Han Hcrop. unfold phase, has_image. cbn.
  now rewrite Han, Hres, Hcrop.
Qed.

(** C4 fails as stated: an image is uploaded and analyzed, then removed,
    each event in a task of its own; the result is still stored and the
    component is in Complete, not in Idle. *)
Lemma remove_image_in_complete_keeps_result :
  exists w,
    exec None detected_without_diseases
      (each_in_its_task
         [PickFile (Some leaf_jpg); ReadSettles 0; ClickAnalyze; TimerFires;
          ClickRemove]) start = Some w /\
    selectedImage (ui w) = None /\
    imagePreview (ui w) = EmptyString /\
    analysisResult (ui w) = Some (synthesize detected_without_diseases 0) /\
    phase None (ui w) = Complete.
Proof.
  eexists. split; [run | ]. split; [run | ].
  split; [run | ]. split; run.
Qed.

(** *** Starting an analysis *)

(** C5, as the component behaves.  When the last render shows no selected
    image and there is no crop image, the button "Start AI Analysis" is
    disabled: a click is not dispatched, [simulateAIAnalysis] does not run,
    and the world is exactly what it was, its state cells and its signals
    included: nothing is reported. *)
Theorem analyze_rejected_without_image (crop : option Crop) (g : Rng)
        (w : World) :
  selectedImage (shown w) = None -> crop_image crop = false ->
  click_analyze crop (shown w) (ui w) = None /\
  step crop g ClickAnalyze w = None /\
  dispatch crop g ClickAnalyze w = w /\
  signals (dispatch crop g ClickAnalyze w) = signals w /\
  phase crop (ui (dispatch crop g ClickAnalyze w)) = phase crop (ui w).
Proof.
  intros Hsel Hcrop.
  assert (Hclick : click_analyze crop (shown w) (ui w) = None).
  { unfold click_analyze, analyze_disabled. rewrite Hsel, Hcrop.
    cbn. now rewrite orb_true_r. }
  assert (Hstep : step crop g ClickAnalyze w = None).
  { cbn [step]. rewrite Hclick. now destruct (mounted w). }
  assert (Hd : dispatch crop g ClickAnalyze w = w)
    by (unfold dispatch; now rewrite Hstep).
  rewrite Hd. repeat split; assumption.
Qed.

(** C5 fails as stated.  An image is uploaded and shown, then "Remove
    Image" and "Start AI Analysis" are activated in one task.  At the second
    click the component holds no image and there is no crop image, yet the
    button is still enabled from the last render and [simulateAIAnalysis] has
    no guard: the analysis starts, nothing is reported, and when the delay
    elapses a result is stored. *)
Lemma analysis_starts_without_image :
  exists w1 w2 w3,
    exec None detected_without_diseases
      [PickFile (Some leaf_jpg); ReadSettles 0; Render; ClickRemove] start
      = Some w1 /\
    selectedImage (ui w1) = None /\
    phase None (ui w1) = Idle /\
    step None detected_without_diseases ClickAnalyze w1 = Some w2 /\
    phase None (ui w2) = Analyzing /\
    signals w2 = [] /\
    step None detected_without_diseases TimerFires w2 = Some w3 /\
    analysisResult (ui w3) = Some (synthesize detected_without_diseases 0).
Proof.
  do 3 eexists. split; [run | ]. split; [run | ].
  split; [run | ]. split; [run | ]. split; [run | ].
  split; [run | ]. split; run.
Qed.

(** *** A file that cannot be read *)

(** C6, as the component behaves.  When the read of the chosen file fails,
    nothing is reported: no signal leaves the component, the preview is
    unchanged, and the file stays the selected image, so that an analysis
    can be started unless one is in flight. *)
Theorem unreadable_file_is_kept (crop : option Crop) (g : Rng) (w : World)
        (f : File) :
  mounted w = true -> upload_rendered (shown w) = true ->
  file_data f = None ->
  exists w',
    exec crop g [PickFile (Some f); ReadSettles (List.length (reads w))] w
      = Some w' /\
    selectedImage (ui w') = Some f /\
    imagePreview (ui w') = imagePreview (ui w) /\
    signals w' = signals w /\
    analyze_disabled crop (ui w') = analyzing (ui w).
Proof.
  intros Hm Hup Hf. cbn [exec step handleImageUpload]. rewrite Hm, Hup.
  cbn [andb reads ui mounted]. rewrite nth_error_snoc.
  eexists. split; [reflexivity | ].
  unfold commit, reader_settles. cbn [mounted ui]. rewrite ?Hm, Hf.
  repeat split. unfold analyze_disabled. cbn. apply orb_false_r.
Qed.

(** C6 fails as stated: from the initial state a file whose read fails is
    chosen; no error is signalled, the file is retained as the selected image
    and the component has left Idle for ImageReady. *)
Lemma unreadable_file_enters_image_ready :
  exists w,
    exec None detected_without_diseases
      [PickFile (Some broken_jpg); ReadSettles 0] start = Some w /\
    phase None (ui start) = Idle /\
    selectedImage (ui w) = Some broken_jpg /\
    signals w = [] /\
    phase None (ui w) = ImageReady.
Proof.
  eexists. split; [run | ]. split; [run | ].
  split; [run | ]. split; run.
Qed.

(** *** The analysis type *)

(** Unwinding: on two worlds that differ at most in the selected type, two
    events that differ at most in the type they select are both impossible,
    or lead to worlds that again differ at most in the selected type. *)
Lemma step_same_but_type (crop : option Crop) (g : Rng) (e1 e2 : Event)
      (w1 w2 : World) :
  same_but_type e1 e2 -> same_but_selected_type w1 w2 ->
  match step crop g e1 w1, step crop g e2 w2 with
  | Some a, Some b => same_but_selected_type a b
  | None, None => True
  | _, _ => False
  end.
Proof.
  intros He Hw.
  destruct w1 as [[si1 ip1 an1 ar1 at1] [xi1 xp1 xn1 xr1 xt1] m1 t1 r1 c1 s1].
  destruct w2 as [[si2 ip2 an2 ar2 at2] [xi2 xp2 xn2 xr2 xt2] m2 t2 r2 c2 s2].
  unfold same_but_selected_type, forget_type, setAnalysisType in *.
  cbn in Hw.
  injection Hw as -> -> -> -> -> -> -> -> -> -> -> -> ->.
  destruct e1, e2; cbn in He; try discriminate He;
    try (injection He as <-);
    cbn [step ui shown mounted timers reads cursor signals].
  - (* PickFile *)
    destruct m2; [ | exact I]. unfold upload_rendered. cbn [imagePreview].
    destruct (truthy xp2); [exact I | ].
    destruct f as [f | ]; reflexivity.
  - (* ReadSettles *)
    destruct (nth_error r2 i) as [f | ]; [ | exact I].
    unfold commit, reader_settles. cbn.
    destruct m2, (file_data f); reflexivity.
  - (* ClickRemove *)
    destruct m2; [ | exact I]. unfold remove_rendered. cbn [imagePreview].
    destruct (truthy xp2); [reflexivity | exact I].
  - (* SelectType *)
    destruct m2; [reflexivity | exact I].
  - (* ClickAnalyze *)
    destruct m2; [ | exact I]. unfold click_analyze, analyze_disabled.
    cbn [analyzing selectedImage].
    destruct (xn2 || _); [exact I | reflexivity].
  - (* TimerFires *)
    destruct t2 as [ | n]; [exact I | ].
    destruct (mockResult g c2) as [r c]. unfold commit. cbn.
    destruct m2; reflexivity.
  - (* ClickExport *)
    destruct m2; [ | exact I]. unfold export_onClick. cbn [analysisResult].
    destruct xr2; [reflexivity | exact I].
  - (* ClickClose *)
    destruct m2; [reflexivity | exact I].
  - (* HostUnmounts *)
    destruct m2; [reflexivity | exact I].
  - (* Render *)
    destruct m2; reflexivity.
Qed.

Lemma exec_same_but_type (crop : option Crop) (g : Rng) (es1 es2 : list Event) :
  Forall2 same_but_type es1 es2 ->
  forall w1 w2, same_but_selected_type w1 w2 ->
  match exec crop g es1 w1, exec crop g es2 w2 with
  | Some a, Some b => same_but_selected_type a b
  | None, None => True
  | _, _ => False
  end.
Proof.
  induction 1 as [ | e1 e2 es1 es2 He Hes IH]; intros w1 w2 Hw.
  - exact Hw.
  - cbn [exec]. pose proof (step_same_but_type crop g e1 e2 w1 w2 He Hw) as Hs.
    destruct (step crop g e1 w1) as [a | ], (step crop g e2 w2) as [b | ];
      try contradiction; [now apply IH | exact I].
Qed.

(** C9. Two runs of the component on the same source of randomness whose
    events differ at most in the analysis types selected: if one is
    possible so is the other, and they store the same result and send the
    same signals, exported documents included. *)
Theorem analysis_type_does_not_interfere (crop : option Crop) (g : Rng)
        (es1 es2 : list Event) (w1 : World) :
  Forall2 same_but_type es1 es2 ->
  exec crop g es1 start = Some w1 ->
  exists w2,
    exec crop g es2 start = Some w2 /\
    analysisResult (ui w2) = analysisResult (ui w1) /\
    signals w2 = signals w1.
Proof.
  intros Hes H1.
  pose proof (exec_same_but_type crop g es1 es2 Hes start start eq_refl) as H.
  rewrite H1 in H. destruct (exec crop g es2 start) as [w2 | ]; [ | contradiction].
  exists w2. split; [reflexivity | ].
  unfold same_but_selected_type in H.
  split.
  - apply (f_equal (fun w => analysisResult (ui w))) in H. cbn in H. now symmetry.
  - apply (f_equal signals) in H. cbn in H. now symmetry.
Qed.

(** *** Instances *)

Lemma export_round_trip_witness :
  exists w,
    exec None detected_without_diseases
      (each_in_its_task [PickFile (Some leaf_jpg); ClickAnalyze; TimerFires])
      start = Some w /\
    exists d w',
      step None detected_without_diseases (ClickExport "2024-05-01T10:00:00.000Z") w
        = Some w' /\
      signals w' = Downloaded d :: signals w /\
      ui w' = ui w /\
      shown w' = shown w /\
      match JSON_parse (download_body d) with
      | Some v => read_result v
      | None => None
      end = Some (synthesize detected_without_diseases 0).
Proof.
  eexists. split; [run | ].
  apply export_round_trip; reflexivity.
Defined.

Lemma close_discards_pending_result_witness :
  exists w,
    exec None detected_without_diseases
      (each_in_its_task [PickFile (Some leaf_jpg); ClickAnalyze]) start
      = Some w /\
    phase None (ui w) = Analyzing /\
    exists w',
      exec None detected_without_diseases (close ++ [TimerFires]) w = Some w' /\
      timers w' = 0%nat /\ cursor w' = 8%nat /\
      signals w' = [CloseRequested] /\
      ui w' = ui w /\ shown w' = shown w /\
      analysisResult (ui w') = None /\
      phase None (ui w') = Analyzing.
Proof.
  eexists. split; [run | ]. split; [reflexivity | ].
  match goal with
  | |- exists w', exec _ _ _ ?w = _ /\ _ =>
      destruct (close_discards_pending_result None detected_without_diseases
                  w 0 eq_refl eq_refl eq_refl)
        as [Hall (w' & He & Ht & Hc & Hs)]
  end.
  exists w'. split; [exact He | ].
  split; [exact Ht | ]. split; [exact Hc | ]. split; [exact Hs | ].
  exact (Hall [TimerFires] w' He).
Defined.

Lemma select_image_keeps_result_witness :
  exists w',
    exec (Some tomato) detected_without_diseases
      [PickFile (Some leaf_jpg); ReadSettles 0] start = Some w' /\
    selectedImage (ui w') = Some leaf_jpg /\
    imagePreview (ui w') = "data:image/jpeg;base64,AAAA" /\
    analysisResult (ui w') = None /\
    analyzing (ui w') = false /\
    analysisType (ui w') = disease.
Proof.
  apply (select_image_keeps_result (Some tomato) detected_without_diseases
           start leaf_jpg); reflexivity.
Defined.

Lemma remove_image_keeps_result_witness :
  exists w,
    exec None detected_without_diseases
      (each_in_its_task [PickFile (Some leaf_jpg); ReadSettles 0]) start
      = Some w /\
    exists w',
      step None detected_without_diseases ClickRemove w = Some w' /\
      selectedImage (ui w') = None /\
      imagePreview (ui w') = EmptyString /\
      analysisResult (ui w') = analysisResult (ui w) /\
      analyzing (ui w') = analyzing (ui w) /\
      analysisType (ui w') = analysisType (ui w) /\
      (analysisResult (ui w) = None -> analyzing (ui w) = false ->
       crop_image None = false -> phase None (ui w') = Idle).
Proof.
  eexists. split; [run | ].
  apply remove_image_keeps_result; reflexivity.
Defined.

Lemma analyze_rejected_without_image_witness :
  click_analyze None (shown start) (ui start) = None /\
  step None detected_without_diseases ClickAnalyze start = None /\
  dispatch None detected_without_diseases ClickAnalyze start = start /\
  signals (dispatch None detected_without_diseases ClickAnalyze start)
  = signals start /\
  phase None (ui (dispatch None detected_without_diseases ClickAnalyze start))
  = phase None (ui start).
Proof.
  apply analyze_rejected_without_image; reflexivity.
Defined.

Lemma unreadable_file_is_kept_witness :
  exists w',
    exec None detected_without_diseases
      [PickFile (Some broken_jpg); ReadSettles 0] start = Some w' /\
    selectedImage (ui w') = Some broken_jpg /\
    imagePreview (ui w') = EmptyString /\
    signals w' = [] /\
    analyze_disabled None (ui w') = false.
Proof.
  apply (unreadable_file_is_kept None detected_without_diseases start
           broken_jpg); reflexivity.
Defined.

Lemma analysis_type_does_not_interfere_witness :
  exists w1,
    exec (Some tomato) detected_without_diseases
      [SelectType health; ClickAnalyze; TimerFires] start = Some w1 /\
    exists w2,
      exec (Some tomato) detected_without_diseases
        [SelectType market; ClickAnalyze; TimerFires] start = Some w2 /\
      analysisResult (ui w2) = analysisResult (ui w1) /\
      signals w2 = signals w1.
Proof.
  eexists. split; [run | ].
  apply (analysis_type_does_not_interfere (Some tomato)
           detected_without_diseases
           [SelectType health; ClickAnalyze; TimerFires]).
  - repeat constructor.
  - run.
Defined.

End ComponentFacts.

(** * Further properties of the component *)

Module More.
Import JsNumber JsNumberFacts Synth SynthFacts Json Component ComponentFacts.

Local Open Scope string_scope.
Local Open Scope Z_scope.

(** ** Random integers *)

Lemma in_Z_range (lo : Z) (len : nat) (k : Z) :
  lo <= k < lo + Z.of_nat len -> In k (Z_range lo len).
Proof.
  intro Hk. unfold Z_range. apply in_map_iff.
  exists (Z.to_nat (k - lo)). split; [lia | ].
  apply in_seq. lia.
Qed.

Lemma literals_exact :
  forallb exact_literal (Z_range 1 1024) = true.
Proof. vm_compute. reflexivity. Qed.

(** X12. [Math.floor (Math.random () * n)] lies between 0 and [n - 1] for
    every integer literal [n] from 1 to 1024, whatever [Math.random()]
    returns: the idiom never yields [n] itself. *)
Theorem floor_random_times_literal (n : Z) (r : Unit01) :
  1 <= n <= 1024 -> 0 <= random_below n r < n.
Proof.
  intro Hn.
  pose proof literals_exact as Hall. rewrite forallb_forall in Hall.
  specialize (Hall n (in_Z_range 1 1024 n ltac:(lia))).
  unfold exact_literal in Hall. unfold random_below.
  destruct (of_int n) as [ | | | [ | ] my ey]; try discriminate Hall.
  apply andb_prop in Hall. destruct Hall as [Hey Hmy].
  apply Z.leb_le in Hey. apply Z.eqb_eq in Hmy.
  now apply (mul_unit_bound r my ey n).
Qed.

Lemma floor_random_times_literal_witness : 0 <= random_below 7 u_max < 7.
Proof. apply floor_random_times_literal. lia. Defined.

(** ** Which reports are synthesized *)

Lemma draw_for_hits :
  forallb (fun n =>
             forallb (fun k => random_below n (draw_for n k) =? k)
                     (Z_range 0 (Z.to_nat n)))
          [3; 20; 30; 50] = true.
Proof. vm_compute. reflexivity. Qed.

Lemma random_below_draw_for (n k : Z) :
  In n [3; 20; 30; 50] -> 0 <= k < n -> random_below n (draw_for n k) = k.
Proof.
  intros Hn Hk. pose proof draw_for_hits as H.
  rewrite forallb_forall in H. specialize (H n Hn).
  rewrite forallb_forall in H.
  apply Z.eqb_eq, H, in_Z_range. lia.
Qed.

(** X1. The ranges are tight and the fields independent: every report whose
    health score and soil health lie between 70 and 99, whose confidence
    lies between 80 and 99, whose price lies between 25 and 74, whose levels
    are among Low, Medium and High, with any detection flag and with the
    list of diseases empty or not, is synthesized from some draws. *)
Theorem every_report_in_range_is_synthesized
        (h c p s : Z) (demand pest : string) (det dis : bool) :
  70 <= h <= 99 -> 80 <= c <= 99 -> 25 <= p <= 74 -> 70 <= s <= 99 ->
  In demand levels -> In pest levels ->
  exists g,
    synthesize g 0 =
    {| healthScore := h;
       diseaseDetection := {|
         detected := det;
         diseases := if dis then ["Leaf Blight"; "Powdery Mildew"] else [];
         confidence := c |};
       recommendations := recommendations_text;
       marketPrediction := {|
         expectedPrice := p;
         demandLevel := Some demand;
         bestHarvestTime := "Next 2-3 weeks" |};
       environmentalFactors := {|
         soilHealth := s;
         weatherImpact := "Favorable conditions expected";
         pestRisk := Some pest |} |}.
Proof.
  intros Hh Hc Hp Hs Hd Hq.
  assert (Hidx : forall l, In l levels ->
                 exists i, 0 <= i < 3 /\ js_index levels i = Some l).
  { intros l [<- | [<- | [<- | []]]];
      [exists 0 | exists 1 | exists 2]; (split; [lia | reflexivity]). }
  destruct (Hidx demand Hd) as (d & Hd3 & Hdl).
  destruct (Hidx pest Hq) as (q & Hq3 & Hql).
  exists (draws_for (h - 70) (c - 80) (p - 25) (s - 70) d q det dis).
  unfold synthesize. rewrite mockResult_eq. cbn [fst].
  unfold draws_for, draws. cbn [nth Nat.add].
  rewrite !random_below_draw_for by (cbn [In]; auto 6; lia).
  rewrite Hdl, Hql.
  replace (random_above_0_7 (if det then u_0_8 else u_half)) with det
    by (now destruct det).
  replace (random_above_0_7 (if dis then u_0_8 else u_half)) with dis
    by (now destruct dis).
  repeat f_equal; lia.
Qed.

Lemma every_report_in_range_is_synthesized_witness :
  exists g,
    synthesize g 0 =
    {| healthScore := 99;
       diseaseDetection := {|
         detected := false;
         diseases := ["Leaf Blight"; "Powdery Mildew"];
         confidence := 80 |};
       recommendations := recommendations_text;
       marketPrediction := {|
         expectedPrice := 74;
         demandLevel := Some "High";
         bestHarvestTime := "Next 2-3 weeks" |};
       environmentalFactors := {|
         soilHealth := 70;
         weatherImpact := "Favorable conditions expected";
         pestRisk := Some "Low" |} |}.
Proof.
  apply (every_report_in_range_is_synthesized 99 80 74 70 "High" "Low"
           false true); cbn; auto; lia.
Defined.

(** X2. [detected] is decided by the second draw of a run alone and
    [diseases] by the third alone, and [diseases] is either empty or the two
    fixed names. *)
Theorem detected_and_diseases_use_separate_draws (g g' : Rng) (i : nat) :
  (g (1 + i)%nat = g' (1 + i)%nat ->
   detected (diseaseDetection (synthesize g i))
   = detected (diseaseDetection (synthesize g' i))) /\
  (g (2 + i)%nat = g' (2 + i)%nat ->
   diseases (diseaseDetection (synthesize g i))
   = diseases (diseaseDetection (synthesize g' i))) /\
  (diseases (diseaseDetection (synthesize g i)) = [] \/
   diseases (diseaseDetection (synthesize g i))
   = ["Leaf Blight"; "Powdery Mildew"]).
Proof.
  unfold synthesize. rewrite !mockResult_eq.
  cbn [fst diseaseDetection detected diseases].
  split; [ | split].
  - now intros ->.
  - now intros ->.
  - destruct (random_above_0_7 (g (2 + i)%nat)); auto.
Qed.

Lemma detected_and_diseases_use_separate_draws_witness :
  detected (diseaseDetection (synthesize detected_without_diseases 0))
  = detected (diseaseDetection
                (synthesize (draws [u_max; u_0_8; u_max; u_max]) 0)).
Proof.
  apply (proj1 (detected_and_diseases_use_separate_draws
                  detected_without_diseases
                  (draws [u_max; u_0_8; u_max; u_max]) 0)).
  reflexivity.
Defined.

(** ** Colours *)

(** X3. On a synthesized report [getHealthScoreColor] never answers red,
    neither for the health score nor for the soil health, and answers green
    exactly from 90 on. *)
Theorem synthesized_health_is_never_red (g : Rng) (i : nat) :
  let r := synthesize g i in
  getHealthScoreColor (healthScore r) <> "text-red-600" /\
  getHealthScoreColor (soilHealth (environmentalFactors r)) <> "text-red-600" /\
  (getHealthScoreColor (healthScore r) = "text-green-600"
   <-> 90 <= healthScore r) /\
  (getHealthScoreColor (soilHealth (environmentalFactors r)) = "text-green-600"
   <-> 90 <= soilHealth (environmentalFactors r)).
Proof.
  unfold synthesize. rewrite mockResult_eq.
  cbn [fst healthScore soilHealth environmentalFactors].
  pose proof (random_below_range 30 (g i) ltac:(cbn; auto)).
  pose proof (random_below_range 30 (g (6 + i)%nat) ltac:(cbn; auto)).
  assert (Hcol : forall x, 70 <= x ->
            getHealthScoreColor x <> "text-red-600" /\
            (getHealthScoreColor x = "text-green-600" <-> 90 <= x)).
  { intros x Hx. unfold getHealthScoreColor.
    destruct (Z.leb_spec 90 x); [ | destruct (Z.leb_spec 70 x)].
    - split; [discriminate | tauto].
    - split; [discriminate | ]. split; [discriminate | lia].
    - lia. }
  split; [apply Hcol; lia | ]. split; [apply Hcol; lia | ].
  split; apply Hcol; lia.
Qed.

(** X4. On a synthesized report the demand level and the pest risk are
    defined and [getDemandLevelColor] and [getRiskLevelColor] never fall
    through to their gray default. *)
Theorem synthesized_levels_are_coloured (g : Rng) (i : nat) :
  let r := synthesize g i in
  exists demand pest,
    demandLevel (marketPrediction r) = Some demand /\
    pestRisk (environmentalFactors r) = Some pest /\
    getDemandLevelColor demand <> "text-gray-600 bg-gray-100" /\
    getRiskLevelColor pest <> "text-gray-600 bg-gray-100".
Proof.
  unfold synthesize. rewrite mockResult_eq.
  cbn [fst demandLevel marketPrediction pestRisk environmentalFactors].
  pose proof (random_level (g (5 + i)%nat)) as Hd.
  pose proof (random_level (g (7 + i)%nat)) as Hq.
  cbn [In] in Hd, Hq.
  destruct Hd as [<- | [<- | [<- | []]]], Hq as [<- | [<- | [<- | []]]];
    do 2 eexists; (split; [reflexivity | ]); (split; [reflexivity | ]);
    split; discriminate.
Qed.

(** X5. The colour of the health bar and the colour of the health score
    agree for every score: both are green from 90 on, both yellow from 70 to
    89 and both red below 70. *)
Theorem health_bar_matches_text (score : Z) :
  (90 <= score ->
   getHealthScoreColor score = "text-green-600" /\
   healthBarClass score = "bg-green-500") /\
  (70 <= score <= 89 ->
   getHealthScoreColor score = "text-yellow-600" /\
   healthBarClass score = "bg-yellow-500") /\
  (score < 70 ->
   getHealthScoreColor score = "text-red-600" /\
   healthBarClass score = "bg-red-500").
Proof.
  unfold getHealthScoreColor, healthBarClass.
  destruct (Z.leb_spec 90 score); [ | destruct (Z.leb_spec 70 score)];
    repeat split; intros; first [reflexivity | lia].
Qed.

Lemma health_bar_matches_text_witness :
  (getHealthScoreColor 95 = "text-green-600" /\
   healthBarClass 95 = "bg-green-500") /\
  (getHealthScoreColor 70 = "text-yellow-600" /\
   healthBarClass 70 = "bg-yellow-500") /\
  (getHealthScoreColor 69 = "text-red-600" /\
   healthBarClass 69 = "bg-red-500").
Proof.
  split; [ | split].
  - apply (proj1 (health_bar_matches_text 95)). lia.
  - apply (proj1 (proj2 (health_bar_matches_text 70))). lia.
  - apply (proj2 (proj2 (health_bar_matches_text 69))). lia.
Defined.

(** ** Invariants of the component *)

Lemma exec_invariant (crop : option Crop) (g : Rng) (I : World -> Prop) :
  (forall e w w', I w -> step crop g e w = Some w' -> I w') ->
  forall es w w', I w -> exec crop g es w = Some w' -> I w'.
Proof.
  intros Hstep es. induction es as [ | e es IH]; intros w w' Hw Hexec.
  - cbn in Hexec. now injection Hexec as <-.
  - cbn [exec] in Hexec.
    destruct (step crop g e w) as [w1 | ] eqn:Hs; [ | discriminate].
    eapply IH; [ | exact Hexec]. eapply Hstep; eassumption.
Qed.

(** On a page that is up to date, no event brings a second analysis in
    flight. *)
Lemma step_single_flight (crop : option Crop) (g : Rng) (e : Event)
      (w w' : World) :
  single_flight w -> (mounted w = true -> shown w = ui w) ->
  step crop g e w = Some w' -> single_flight w'.
Proof.
  destruct w as [[si ip an ar ty] sh m t r c sg].
  unfold single_flight. cbn [timers ui shown mounted analyzing].
  intros (Hle & Hpending & Hflag) Hfresh Hs.
  destruct e; cbn [step ui shown mounted timers reads cursor signals] in Hs.
  - (* PickFile *)
    destruct (m && upload_rendered _); [ | discriminate].
    destruct f; injection Hs as <-; cbn; auto.
  - (* ReadSettles *)
    destruct (nth_error r i) as [f | ]; [ | discriminate].
    injection Hs as <-. unfold commit, reader_settles. cbn.
    destruct m, (file_data f); cbn; auto.
  - (* ClickRemove *)
    destruct (m && remove_rendered _); [ | discriminate].
    injection Hs as <-. cbn. auto.
  - (* SelectType *)
    destruct m; [ | discriminate]. injection Hs as <-. cbn. auto.
  - (* ClickAnalyze *)
    destruct m; [ | discriminate]. rewrite (Hfresh eq_refl) in Hs.
    unfold click_analyze, analyze_disabled in Hs. cbn in Hs.
    destruct an; [discriminate | ]. cbn in Hs.
    destruct (negb _ && negb _); [discriminate | ].
    injection Hs as <-. cbn.
    assert (t = 0%nat).
    { destruct t as [ | [ | t]]; [reflexivity | | lia].
      discriminate (Hpending eq_refl). }
    subst t. repeat split; auto.
  - (* TimerFires *)
    destruct t as [ | n]; [discriminate | ].
    destruct (mockResult g c) as [res c']. injection Hs as <-.
    unfold commit. cbn. assert (n = 0%nat) by lia. subst n.
    destruct m; cbn; repeat split; auto; discriminate.
  - (* ClickExport *)
    destruct m; [ | discriminate].
    destruct (export_onClick crop now _); [ | discriminate].
    injection Hs as <-. cbn. auto.
  - (* ClickClose *)
    destruct m; [ | discriminate]. injection Hs as <-. cbn. auto.
  - (* HostUnmounts *)
    destruct m; [ | discriminate]. injection Hs as <-. cbn.
    repeat split; auto; discriminate.
  - (* Render *)
    injection Hs as <-. cbn. auto.
Qed.

(** A render brings the page up to date and starts no analysis. *)
Lemma render_single_flight (crop : option Crop) (g : Rng) (w w' : World) :
  single_flight w -> step crop g Render w = Some w' ->
  single_flight w' /\ (mounted w' = true -> shown w' = ui w').
Proof.
  destruct w as [s sh m t r c sg]. unfold single_flight.
  intros H Hs. cbn [step ui shown mounted timers reads cursor signals] in Hs.
  injection Hs as <-. cbn. split; [exact H | ]. now intros ->.
Qed.

(** One event followed by a render keeps the page up to date and at most one
    analysis in flight. *)
Lemma task_single_flight (crop : option Crop) (g : Rng) (e : Event)
      (w w' : World) :
  single_flight w /\ (mounted w = true -> shown w = ui w) ->
  exec crop g [e; Render] w = Some w' ->
  single_flight w' /\ (mounted w' = true -> shown w' = ui w').
Proof.
  intros [Hsf Hfresh] He. cbn [exec] in He.
  destruct (step crop g e w) as [w1 | ] eqn:Hs1; [ | discriminate].
  destruct (step crop g Render w1) as [w2 | ] eqn:Hs2; [ | discriminate].
  injection He as <-.
  apply (render_single_flight crop g w1 w2); [ | exact Hs2].
  exact (step_single_flight crop g e w w1 Hsf Hfresh Hs1).
Qed.

(** X6. No overlapping analyses when each event runs in a task of its own,
    so that React renders after every one: in every world reached that way
    at most one continuation of [simulateAIAnalysis] is pending, and on the
    mounted component one is pending exactly when [analyzing] is set. *)
Theorem one_analysis_at_a_time (crop : option Crop) (g : Rng)
        (es : list Event) (w : World) :
  exec crop g (each_in_its_task es) start = Some w -> single_flight w.
Proof.
  intro Hes.
  enough (H : forall es w0 w1,
             single_flight w0 /\ (mounted w0 = true -> shown w0 = ui w0) ->
             exec crop g (each_in_its_task es) w0 = Some w1 ->
             single_flight w1 /\ (mounted w1 = true -> shown w1 = ui w1)).
  { refine (proj1 (H es start w _ Hes)).
    unfold single_flight. cbn. repeat split; auto; discriminate. }
  clear. intros es. induction es as [ | e es IH]; intros w0 w1 H0 He.
  - cbn in He. now injection He as <-.
  - change (each_in_its_task (e :: es))
      with ([e; Render] ++ each_in_its_task es)%list in He.
    cbn [app exec] in He.
    destruct (step crop g e w0) as [wa | ] eqn:Hs1; [ | discriminate].
    destruct (step crop g Render wa) as [wb | ] eqn:Hs2; [ | discriminate].
    apply (IH wb w1); [ | exact He].
    apply (task_single_flight crop g e w0 wb H0).
    cbn [exec]. now rewrite Hs1, Hs2.
Qed.

Lemma one_analysis_at_a_time_witness :
  exists w,
    exec None detected_without_diseases
      (each_in_its_task [PickFile (Some leaf_jpg); ClickAnalyze]) start
      = Some w /\
    single_flight w.
Proof.
  eexists. split; [vm_compute; reflexivity | ].
  apply (one_analysis_at_a_time None detected_without_diseases
           [PickFile (Some leaf_jpg); ClickAnalyze]).
  vm_compute. reflexivity.
Defined.

(** The render between the events matters: two clicks on "Start AI Analysis"
    in one task both find the button enabled and start two analyses. *)
Lemma two_clicks_in_one_task :
  exists w,
    exec (Some tomato) detected_without_diseases [ClickAnalyze; ClickAnalyze]
      start = Some w /\
    timers w = 2%nat.
Proof. eexists. split; reflexivity. Qed.

Lemma step_results_synthesized (crop : option Crop) (g : Rng) (e : Event)
      (w w' : World) :
  results_synthesized g w -> step crop g e w = Some w' ->
  results_synthesized g w'.
Proof.
  destruct w as [[si ip an ar ty] [xi xp xn xr xt] m t r c sg].
  unfold results_synthesized, synthesized_so_far.
  cbn [cursor ui shown analysisResult].
  intros (Hcur & Hres & Hshown) Hs.
  destruct e; cbn [step ui shown mounted timers reads cursor signals] in Hs.
  - destruct (m && upload_rendered _); [ | discriminate].
    destruct f; injection Hs as <-; cbn; auto.
  - destruct (nth_error r i) as [f | ]; [ | discriminate].
    injection Hs as <-. unfold commit, reader_settles. cbn.
    destruct m, (file_data f); cbn; auto.
  - destruct (m && remove_rendered _); [ | discriminate].
    injection Hs as <-. cbn. auto.
  - destruct m; [ | discriminate]. injection Hs as <-. cbn. auto.
  - destruct m; [ | discriminate].
    destruct (click_analyze crop _ _) as [s' | ] eqn:Hc; [ | discriminate].
    injection Hs as <-. unfold click_analyze in Hc.
    destruct (analyze_disabled crop _); [discriminate | ].
    injection Hc as <-. cbn. auto.
  - destruct t as [ | n]; [discriminate | ].
    rewrite mockResult_synthesize in Hs. injection Hs as <-.
    unfold commit. cbn. destruct Hcur as [k Hk]. subst c.
    split; [exists (S k); lia | ].
    split.
    + destruct m; cbn.
      * intros res [= <-]. exists k. split; [reflexivity | lia].
      * intros res Hr. destruct (Hres res Hr) as (k' & -> & Hlt).
        exists k'. split; [reflexivity | lia].
    + intros res Hr. destruct (Hshown res Hr) as (k' & -> & Hlt).
      exists k'. split; [reflexivity | lia].
  - destruct m; [ | discriminate].
    destruct (export_onClick crop now _); [ | discriminate].
    injection Hs as <-. cbn. auto.
  - destruct m; [ | discriminate]. injection Hs as <-. cbn. auto.
  - destruct m; [ | discriminate]. injection Hs as <-. cbn. auto.
  - injection Hs as <-. cbn. destruct m; cbn; auto.
Qed.

(** X7. Whatever the user did before, a result held by the component was
    built by one of the analyses run so far, from eight consecutive draws,
    and therefore has its scores between 70 and 99, its confidence between
    80 and 99, its price between 25 and 74 and its levels defined. *)
Theorem stored_result_is_synthesized (crop : option Crop) (g : Rng)
        (w : World) (r : AnalysisResult) :
  reachable crop g w -> analysisResult (ui w) = Some r ->
  (exists k, r = synthesize g (8 * k) /\ (8 * k < cursor w)%nat) /\
  70 <= healthScore r <= 99 /\
  70 <= soilHealth (environmentalFactors r) <= 99 /\
  80 <= confidence (diseaseDetection r) <= 99 /\
  25 <= expectedPrice (marketPrediction r) <= 74 /\
  demandLevel (marketPrediction r) <> None /\
  pestRisk (environmentalFactors r) <> None.
Proof.
  intros [es Hes] Hr.
  assert (Hinv : results_synthesized g w).
  { apply (exec_invariant crop g (results_synthesized g)
             (step_results_synthesized crop g) es start w); [ | exact Hes].
    split; [exists 0%nat; reflexivity | split; discriminate]. }
  destruct Hinv as (_ & Hres & _). destruct (Hres r Hr) as (k & -> & Hlt).
  split; [eauto | ].
  unfold synthesize. rewrite mockResult_eq.
  cbn [fst healthScore soilHealth environmentalFactors confidence
       diseaseDetection expectedPrice marketPrediction demandLevel pestRisk].
  pose proof (random_below_range 30 (g (8 * k)%nat) ltac:(cbn; auto)).
  pose proof (random_below_range 30 (g (6 + 8 * k)%nat) ltac:(cbn; auto)).
  pose proof (random_below_range 20 (g (3 + 8 * k)%nat) ltac:(cbn; auto)).
  pose proof (random_below_range 50 (g (4 + 8 * k)%nat) ltac:(cbn; auto)).
  pose proof (random_level (g (5 + 8 * k)%nat)) as Hd.
  pose proof (random_level (g (7 + 8 * k)%nat)) as Hq.
  repeat split; try lia.
  - intro Hn. rewrite Hn in Hd. cbn in Hd.
    destruct Hd as [? | [? | [? | []]]]; discriminate.
  - intro Hn. rewrite Hn in Hq. cbn in Hq.
    destruct Hq as [? | [? | [? | []]]]; discriminate.
Qed.

Lemma stored_result_is_synthesized_witness :
  exists w r,
    exec (Some tomato) detected_without_diseases
      (each_in_its_task [ClickAnalyze; TimerFires; ClickAnalyze; TimerFires])
      start = Some w /\
    analysisResult (ui w) = Some r /\
    70 <= healthScore r <= 99.
Proof.
  do 2 eexists. split; [vm_compute; reflexivity | ]. split; [reflexivity | ].
  refine (proj1 (proj2 (stored_result_is_synthesized
                          (Some tomato) detected_without_diseases _ _ _ _))).
  - exists (each_in_its_task
              [ClickAnalyze; TimerFires; ClickAnalyze; TimerFires]).
    vm_compute. reflexivity.
  - reflexivity.
Defined.

(** ** Running an analysis *)

(** X8. Where the page shows the button "Start AI Analysis" enabled, a click
    puts the component in the analyzing state; once that is rendered a
    second click is rejected; and when the delay elapses the report built
    from the next eight draws is stored, replacing a previous one, and the
    component is in Complete.  The image, the preview and the analysis type
    are untouched. *)
Theorem analysis_runs_to_completion (crop : option Crop) (g : Rng) (w : World) :
  mounted w = true -> analyze_disabled crop (shown w) = false ->
  exists w1 w2,
    step crop g ClickAnalyze w = Some w1 /\
    phase crop (ui w1) = Analyzing /\
    exec crop g [ClickAnalyze; Render; ClickAnalyze] w = None /\
    step crop g TimerFires w1 = Some w2 /\
    analysisResult (ui w2) = Some (synthesize g (cursor w)) /\
    phase crop (ui w2) = Complete /\
    cursor w2 = (8 + cursor w)%nat /\
    timers w2 = timers w /\
    selectedImage (ui w2) = selectedImage (ui w) /\
    imagePreview (ui w2) = imagePreview (ui w) /\
    analysisType (ui w2) = analysisType (ui w).
Proof.
  intros Hm Hen.
  destruct w as [[si ip an ar ty] sh m t r c sg]. cbn in Hm. subst m.
  cbn [shown] in Hen.
  cbn [exec step ui shown mounted]. unfold click_analyze. rewrite Hen.
  do 2 eexists. split; [reflexivity | ].
  split; [reflexivity | ].
  split; [reflexivity | ].
  cbn [step timers cursor]. rewrite mockResult_synthesize.
  split; [reflexivity | ]. unfold commit. cbn. repeat split.
Qed.

Lemma analysis_runs_to_completion_witness :
  exists w1 w2,
    step (Some tomato) detected_without_diseases ClickAnalyze start = Some w1 /\
    phase (Some tomato) (ui w1) = Analyzing /\
    exec (Some tomato) detected_without_diseases
      [ClickAnalyze; Render; ClickAnalyze] start = None /\
    step (Some tomato) detected_without_diseases TimerFires w1 = Some w2 /\
    analysisResult (ui w2) = Some (synthesize detected_without_diseases 0) /\
    phase (Some tomato) (ui w2) = Complete /\
    cursor w2 = 8%nat /\
    timers w2 = 0%nat /\
    selectedImage (ui w2) = None /\
    imagePreview (ui w2) = EmptyString /\
    analysisType (ui w2) = disease.
Proof.
  apply (analysis_runs_to_completion (Some tomato) detected_without_diseases
           start); reflexivity.
Defined.

(** ** The analysis type *)

(** X9. Selecting an analysis type is always possible on the mounted
    component, changes the selected type and nothing else, and selecting the
    same type twice is the same as selecting it once. *)
Theorem select_type_only_sets_type (crop : option Crop) (g : Rng) (w : World)
        (t : AnalysisType) :
  mounted w = true ->
  exists w',
    step crop g (SelectType t) w = Some w' /\
    analysisType (ui w') = t /\
    same_but_selected_type w' w /\
    exec crop g [SelectType t; SelectType t] w = Some w'.
Proof.
  intro Hm. destruct w as [[si ip an ar ty] sh m tm r c sg].
  cbn in Hm. subst m. eexists. split; [reflexivity | ].
  repeat split.
Qed.

Lemma select_type_only_sets_type_witness :
  exists w',
    step None detected_without_diseases (SelectType market) start = Some w' /\
    analysisType (ui w') = market /\
    same_but_selected_type w' start /\
    exec None detected_without_diseases [SelectType market; SelectType market]
      start = Some w'.
Proof.
  apply (select_type_only_sets_type None detected_without_diseases start market).
  reflexivity.
Defined.

(** ** The name of the exported file *)

Lemma before_T_date (date rest : string) :
  free_of "T" date = true ->
  before_T (date ++ String "T" rest) = date.
Proof.
  induction date as [ | c date IH]; cbn [before_T append free_of].
  - reflexivity.
  - intro H. apply andb_prop in H. destruct H as [Hc Hd].
    apply negb_true_iff in Hc. rewrite Hc, IH by exact Hd. reflexivity.
Qed.

(** X10. The exported file is named [ai-analysis-<name>-<date>.json], where
    [<date>] is the part of the ISO time stamp before its [T] and [<name>]
    is the name of the crop, or [crop] when there is no crop or its name is
    empty; [<name>] is never empty. *)
Theorem export_file_name (crop : option Crop) (date time : string) :
  free_of "T" date = true ->
  export_filename crop (date ++ String "T" time)
  = "ai-analysis-" ++ crop_name crop ++ "-" ++ date ++ ".json" /\
  crop_name crop <> EmptyString /\
  (crop = None -> crop_name crop = "crop") /\
  (forall c, crop = Some c ->
             crop_name crop = if truthy (name c) then name c else "crop").
Proof.
  intro Hd. unfold export_filename. rewrite before_T_date by exact Hd.
  split; [reflexivity | ]. split; [ | split].
  - destruct crop as [c | ]; cbn [crop_name]; [ | discriminate].
    destruct (name c); cbn [truthy]; discriminate.
  - now intros ->.
  - now intros c ->.
Qed.

Lemma export_file_name_witness :
  export_filename (Some tomato) "2024-05-01T10:00:00.000Z"
  = "ai-analysis-Tomato-2024-05-01.json".
Proof.
  apply (proj1 (export_file_name (Some tomato) "2024-05-01" "10:00:00.000Z"
                  eq_refl)).
Defined.

(** ** Exported files *)

Lemma synthesized_so_far_later (g : Rng) (w w' : World) (r : AnalysisResult) :
  (cursor w <= cursor w')%nat ->
  synthesized_so_far g w r -> synthesized_so_far g w' r.
Proof.
  intros Hc (k & Hr & Hk). exists k. split; [exact Hr | lia].
Qed.

Lemma step_cursor (crop : option Crop) (g : Rng) (e : Event) (w w' : World) :
  step crop g e w = Some w' ->
  (cursor w <= cursor w')%nat /\
  (signals w' = signals w \/
   signals w' = CloseRequested :: signals w \/
   exists r now,
     analysisResult (shown w) = Some r /\
     signals w'
     = Downloaded {| download_name := export_filename crop now;
                     download_body := JSON_stringify (result_to_value r) |}
       :: signals w).
Proof.
  intro Hs. destruct w as [s sh m t r c sg].
  destruct e; cbn [step ui shown mounted timers reads cursor signals] in Hs.
  - destruct (m && upload_rendered _); [ | discriminate].
    destruct (handleImageUpload f s). injection Hs as <-. cbn. auto.
  - destruct (nth_error r i); [ | discriminate].
    injection Hs as <-. cbn. auto.
  - destruct (m && remove_rendered _); [ | discriminate].
    injection Hs as <-. cbn. auto.
  - destruct m; [ | discriminate]. injection Hs as <-. cbn. auto.
  - destruct m; [ | discriminate].
    destruct (click_analyze crop _ _); [ | discriminate].
    injection Hs as <-. cbn. auto.
  - destruct t; [discriminate | ]. rewrite mockResult_synthesize in Hs.
    injection Hs as <-. cbn. split; [lia | auto].
  - destruct m; [ | discriminate]. unfold export_onClick in Hs.
    destruct (analysisResult sh) as [res | ] eqn:Hr; [ | discriminate].
    injection Hs as <-. cbn. split; [lia | ]. right. right.
    exists res, now. auto.
  - destruct m; [ | discriminate]. injection Hs as <-. cbn. auto.
  - destruct m; [ | discriminate]. injection Hs as <-. cbn. auto.
  - injection Hs as <-. cbn. auto.
Qed.

Lemma step_exports_synthesized (crop : option Crop) (g : Rng) (e : Event)
      (w w' : World) :
  results_synthesized g w /\ exports_synthesized g w ->
  step crop g e w = Some w' ->
  results_synthesized g w' /\ exports_synthesized g w'.
Proof.
  intros [Hres Hexp] Hs.
  split; [exact (step_results_synthesized crop g e w w' Hres Hs) | ].
  destruct (step_cursor crop g e w w' Hs) as [Hc Hsig].
  destruct Hres as (_ & _ & Hshown).
  unfold exports_synthesized in *. intros d Hd.
  assert (Hold : In (Downloaded d) (signals w) ->
                 exists r, synthesized_so_far g w' r /\
                           download_body d = JSON_stringify (result_to_value r)).
  { intro Hin. destruct (Hexp d Hin) as (r & Hr & Hb).
    exists r. split; [ | exact Hb].
    now apply (synthesized_so_far_later g w w'). }
  destruct Hsig as [Heq | [Heq | (r & now & Hr & Heq)]]; rewrite Heq in Hd.
  - auto.
  - destruct Hd as [Hd | Hd]; [discriminate | auto].
  - destruct Hd as [[= <-] | Hd]; [ | auto].
    exists r. split; [ | reflexivity].
    apply (synthesized_so_far_later g w w' r Hc). now apply Hshown.
Qed.

(** X11. Every file the component has offered for download is a JSON
    document that parses, and reading it back gives a report built, from
    eight consecutive draws, by one of the analyses run so far. *)
Theorem every_export_parses_to_a_report (crop : option Crop) (g : Rng)
        (w : World) (d : Download) :
  reachable crop g w -> In (Downloaded d) (signals w) ->
  exists k,
    (8 * k < cursor w)%nat /\
    match JSON_parse (download_body d) with
    | Some v => read_result v
    | None => None
    end = Some (synthesize g (8 * k)).
Proof.
  intros [es Hes] Hd.
  assert (Hinv : results_synthesized g w /\ exports_synthesized g w).
  { apply (exec_invariant crop g
             (fun x => results_synthesized g x /\ exports_synthesized g x)
             (step_exports_synthesized crop g) es start w); [ | exact Hes].
    split; [split; [exists 0%nat; reflexivity | split; discriminate] | ].
    intros x []. }
  destruct Hinv as [_ Hexp].
  destruct (Hexp d Hd) as (r & (k & -> & Hk) & Hb).
  exists k. split; [exact Hk | ].
  rewrite Hb, JsonFacts.parse_stringify.
  apply read_result_to_value.
Qed.

Lemma every_export_parses_to_a_report_witness :
  exists w d,
    exec (Some tomato) detected_without_diseases
      (each_in_its_task
         [ClickAnalyze; TimerFires; ClickExport "2024-05-01T10:00:00.000Z"])
      start = Some w /\
    In (Downloaded d) (signals w) /\
    exists k,
      (8 * k < cursor w)%nat /\
      match JSON_parse (download_body d) with
      | Some v => read_result v
      | None => None
      end = Some (synthesize detected_without_diseases (8 * k)).
Proof.
  do 2 eexists. split; [vm_compute; reflexivity | ].
  split; [left; reflexivity | ].
  eapply (every_export_parses_to_a_report (Some tomato)
            detected_without_diseases).
  - exists (each_in_its_task
              [ClickAnalyze; TimerFires;
               ClickExport "2024-05-01T10:00:00.000Z"]).
    vm_compute. reflexivity.
  - left. reflexivity.
Defined.

(** ** Choosing no file *)

(** X13. When the file dialog hands over no file, [handleImageUpload] does
    nothing: the world is exactly what it was and no read is started. *)
Theorem pick_no_file_changes_nothing (crop : option Crop) (g : Rng) (w : World) :
  mounted w = true -> upload_rendered (shown w) = true ->
  step crop g (PickFile None) w = Some w.
Proof.
  intros Hm Hup. destruct w as [s sh m t r c sg]. cbn in Hm, Hup. subst m.
  cbn [step ui shown mounted]. rewrite Hup. cbn.
  now rewrite List.app_nil_r.
Qed.

Lemma pick_no_file_changes_nothing_witness :
  step None detected_without_diseases (PickFile None) start = Some start.
Proof.
  apply pick_no_file_changes_nothing; reflexivity.
Defined.

End More.
